(** * Mini RTOS: a shallow embedding of [rtos.c] and its checked properties

    The kernel keeps one global, statically initialised [task_list]: the
    task control blocks with their private stacks, the number of created
    tasks, the current and next task handles and the global tick.  The API
    ([rtos_create_task], [rtos_start_scheduler], [rtos_delay],
    [rtos_suspend_task], [rtos_activate_task], [rtos_get_clock]) and the two
    interrupt handlers ([SysTick_Handler], [PendSV_Handler]) are embedded as
    functions on an explicit machine state.

    Conventions of the embedding:
    - fixed-width C integers are [Z] with the wrap-around written out;
    - an access [tasks[i]] outside the array is undefined behaviour in C and
      is the outcome [Fault] here;
    - the two [for] loops run on fuel that covers the whole range of their
      [uint8_t] counter, so that [Diverge] is a loop that never exits;
    - pointers into the stacks are abstract word addresses: [p + k] on a
      [uint32_t *] moves by [k] words. *)

From Stdlib Require Import ZArith Lia Bool.
From stdpp Require Import base tactics option list numbers.

Local Open Scope Z_scope.

(** ** Fixed-width integers *)

Definition wrap_unsigned (bits z : Z) : Z := z mod 2 ^ bits.

Definition wrap_signed (bits z : Z) : Z :=
  (z + 2 ^ (bits - 1)) mod 2 ^ bits - 2 ^ (bits - 1).

Definition to_uint8 : Z -> Z := wrap_unsigned 8.
Definition to_int8 : Z -> Z := wrap_signed 8.
Definition to_uint32 : Z -> Z := wrap_unsigned 32.

(** ** Module defines *)

Definition STACK_FRAME_SIZE : Z := 8.
Definition STACK_PC_OFFSET : Z := 2.
Definition STACK_PSR_OFFSET : Z := 1.
Definition STACK_PSR_DEFAULT : Z := 0x01000000.
Definition INVALID_TASK : Z := -1.

(** ** Type definitions *)

Inductive task_state_e := S_READY | S_RUNNING | S_WAITING | S_SUSPENDED.

Inductive task_switch_type_e := kFromISR | kFromNormalExec.

(** [rtos_autostart_e] is declared in [rtos.h]; the source names its two
    enumerators. *)
Inductive rtos_autostart_e := kAutoStart | kStartSuspended.

#[global] Instance task_state_e_eq_dec : EqDecision task_state_e.
Proof. solve_decision. Defined.

#[global] Instance task_switch_type_e_eq_dec : EqDecision task_switch_type_e.
Proof. solve_decision. Defined.

#[global] Instance rtos_autostart_e_eq_dec : EqDecision rtos_autostart_e.
Proof. solve_decision. Defined.

Record rtos_tcb_t := mk_tcb {
  priority : Z;            (* uint8_t *)
  state : task_state_e;
  sp : Z;                  (* uint32_t *, a word address *)
  task_body : Z;           (* address of the task's entry function *)
  local_tick : Z;          (* rtos_tick_t *)
  reserved : list Z;       (* uint32_t [10] *)
  stack : list Z           (* uint32_t [RTOS_STACK_SIZE] *)
}.

Record task_list_t := mk_task_list {
  nTasks : Z;              (* uint8_t *)
  current_task : Z;        (* rtos_task_handle_t *)
  next_task : Z;           (* rtos_task_handle_t *)
  tasks : list rtos_tcb_t; (* rtos_tcb_t [RTOS_MAX_NUMBER_OF_TASKS + 1] *)
  global_tick : Z          (* rtos_tick_t *)
}.

(** The registers the kernel reads or writes by name. *)
Record cpu_t := mk_cpu {
  reg_sp : Z;
  reg_r0 : Z;
  reg_r7 : Z
}.

(** The peripheral registers the kernel programs: the tick timer, the
    pending bit of the deferred-switch interrupt and the is-alive pin. *)
Record periph_t := mk_periph {
  SysTick_CTRL : Z;
  SysTick_LOAD : Z;
  SysTick_VAL : Z;
  ICSR_PENDSV : bool;
  alive_pin : Z
}.

(** The whole state: the global [task_list], the function-local statics
    ([first_run] of [context_switch]; [state] and [count] of
    [refresh_is_alive]), the CPU registers and the peripherals. *)
Record machine := mk_machine {
  task_list : task_list_t;
  first_run : Z;           (* static uint8_t, initially 1 *)
  alive_state : Z;         (* static uint8_t, initially 0 *)
  alive_count : Z;         (* static uint32_t, initially 0 *)
  cpu : cpu_t;
  periph : periph_t
}.

(** What [rtos.h], [rtos_config.h] and the board support package fix and
    [rtos.c] only uses. *)
Record rtos_config := mk_config {
  RTOS_MAX_NUMBER_OF_TASKS : Z;
  RTOS_STACK_SIZE : Z;
  RTOS_ENABLE_IS_ALIVE : bool;       (* whether the macro is defined *)
  RTOS_TIC_PERIOD_IN_US : Z;
  RTOS_IS_ALIVE_PERIOD_IN_US : Z;
  handle_bits : Z;   (* width of the signed type rtos_task_handle_t *)
  tick_bits : Z;     (* width of the unsigned type rtos_tick_t *)
  stack_base : Z -> Z;  (* word address of tasks[i].stack[0] *)
  idle_task : Z;     (* address of the function idle_task *)
  systick_count : Z  (* USEC_TO_COUNT(RTOS_TIC_PERIOD_IN_US, core clock) *)
}.

(** ** Field updates *)

Definition set_priority (v : Z) (t : rtos_tcb_t) : rtos_tcb_t :=
  mk_tcb v (state t) (sp t) (task_body t) (local_tick t) (reserved t) (stack t).
Definition set_state (v : task_state_e) (t : rtos_tcb_t) : rtos_tcb_t :=
  mk_tcb (priority t) v (sp t) (task_body t) (local_tick t) (reserved t) (stack t).
Definition set_sp (v : Z) (t : rtos_tcb_t) : rtos_tcb_t :=
  mk_tcb (priority t) (state t) v (task_body t) (local_tick t) (reserved t) (stack t).
Definition set_task_body (v : Z) (t : rtos_tcb_t) : rtos_tcb_t :=
  mk_tcb (priority t) (state t) (sp t) v (local_tick t) (reserved t) (stack t).
Definition set_local_tick (v : Z) (t : rtos_tcb_t) : rtos_tcb_t :=
  mk_tcb (priority t) (state t) (sp t) (task_body t) v (reserved t) (stack t).
Definition set_stack (v : list Z) (t : rtos_tcb_t) : rtos_tcb_t :=
  mk_tcb (priority t) (state t) (sp t) (task_body t) (local_tick t) (reserved t) v.

Definition set_nTasks (v : Z) (l : task_list_t) : task_list_t :=
  mk_task_list v (current_task l) (next_task l) (tasks l) (global_tick l).
Definition set_current_task (v : Z) (l : task_list_t) : task_list_t :=
  mk_task_list (nTasks l) v (next_task l) (tasks l) (global_tick l).
Definition set_next_task (v : Z) (l : task_list_t) : task_list_t :=
  mk_task_list (nTasks l) (current_task l) v (tasks l) (global_tick l).
Definition set_tasks (v : list rtos_tcb_t) (l : task_list_t) : task_list_t :=
  mk_task_list (nTasks l) (current_task l) (next_task l) v (global_tick l).
Definition set_global_tick (v : Z) (l : task_list_t) : task_list_t :=
  mk_task_list (nTasks l) (current_task l) (next_task l) (tasks l) v.

Definition set_task_list (v : task_list_t) (m : machine) : machine :=
  mk_machine v (first_run m) (alive_state m) (alive_count m) (cpu m) (periph m).
Definition set_first_run (v : Z) (m : machine) : machine :=
  mk_machine (task_list m) v (alive_state m) (alive_count m) (cpu m) (periph m).
Definition set_alive (s c : Z) (m : machine) : machine :=
  mk_machine (task_list m) (first_run m) s c (cpu m) (periph m).
Definition set_cpu (v : cpu_t) (m : machine) : machine :=
  mk_machine (task_list m) (first_run m) (alive_state m) (alive_count m) v (periph m).
Definition set_periph (v : periph_t) (m : machine) : machine :=
  mk_machine (task_list m) (first_run m) (alive_state m) (alive_count m) (cpu m) v.

Definition set_ICSR_PENDSV (b : bool) (p : periph_t) : periph_t :=
  mk_periph (SysTick_CTRL p) (SysTick_LOAD p) (SysTick_VAL p) b (alive_pin p).
Definition set_alive_pin (v : Z) (p : periph_t) : periph_t :=
  mk_periph (SysTick_CTRL p) (SysTick_LOAD p) (SysTick_VAL p) (ICSR_PENDSV p) v.
Definition set_SysTick_CTRL (v : Z) (p : periph_t) : periph_t :=
  mk_periph v (SysTick_LOAD p) (SysTick_VAL p) (ICSR_PENDSV p) (alive_pin p).
Definition set_SysTick_LOAD (v : Z) (p : periph_t) : periph_t :=
  mk_periph (SysTick_CTRL p) v (SysTick_VAL p) (ICSR_PENDSV p) (alive_pin p).
Definition set_SysTick_VAL (v : Z) (p : periph_t) : periph_t :=
  mk_periph (SysTick_CTRL p) (SysTick_LOAD p) v (ICSR_PENDSV p) (alive_pin p).

(** ** Outcomes of running kernel code *)

Inductive outcome (A : Type) : Type :=
  | Done (a : A)
  | Fault      (* an access outside an array: undefined behaviour *)
  | Diverge.   (* a loop that does not exit *)

Arguments Done {A} a.
Arguments Fault {A}.
Arguments Diverge {A}.

#[global] Instance outcome_ret : MRet outcome := fun A a => Done a.

#[global] Instance outcome_bind : MBind outcome := fun A B k o =>
  match o with
  | Done a => k a
  | Fault => Fault
  | Diverge => Diverge
  end.

(** ** Access to the TCB array and to a stack *)

Definition tcb_at (l : task_list_t) (i : Z) : option rtos_tcb_t :=
  if decide (0 <= i) then tasks l !! Z.to_nat i else None.

Definition tcb_put (i : Z) (t : rtos_tcb_t) (l : task_list_t) : task_list_t :=
  set_tasks (<[Z.to_nat i := t]> (tasks l)) l.

(** [tasks[i].field = v]: a read-modify-write of one TCB. *)
Definition tcb_modify (i : Z) (f : rtos_tcb_t -> rtos_tcb_t) (l : task_list_t)
    : outcome task_list_t :=
  match tcb_at l i with
  | Some t => Done (tcb_put i (f t) l)
  | None => Fault
  end.

(** [tasks[..].stack[i] = v] *)
Definition stack_store (i v : Z) (t : rtos_tcb_t) : outcome rtos_tcb_t :=
  if decide (0 <= i < Z.of_nat (length (stack t)))
  then Done (set_stack (<[Z.to_nat i := v]> (stack t)) t)
  else Fault.

Definition tcb_store (i : Z) (f : rtos_tcb_t -> outcome rtos_tcb_t)
    (l : task_list_t) : outcome task_list_t :=
  match tcb_at l i with
  | Some t => t' ← f t; Done (tcb_put i t' l)
  | None => Fault
  end.

(** ** The kernel *)

(** Both loops count with a [uint8_t]: 256 values, and one more test to
    leave the loop. *)
Definition loop_fuel : nat := 257.

(** The bits of [SysTick->CTRL] the kernel sets (CMSIS). *)
Definition SysTick_CTRL_ENABLE_Msk : Z := 1.
Definition SysTick_CTRL_TICKINT_Msk : Z := 2.
Definition SysTick_CTRL_CLKSOURCE_Msk : Z := 4.

Definition is_runnable (t : rtos_tcb_t) : bool :=
  bool_decide (state t = S_READY) || bool_decide (state t = S_RUNNING).

Section Kernel.

Variable cfg : rtos_config.

Definition to_handle : Z -> Z := wrap_signed (handle_bits cfg).
Definition to_tick : Z -> Z := wrap_unsigned (tick_bits cfg).

(** [task_list = { 0 }] *)
Definition zero_tcb : rtos_tcb_t :=
  {| priority := 0; state := S_READY; sp := 0; task_body := 0;
     local_tick := 0; reserved := replicate 10 0;
     stack := replicate (Z.to_nat (RTOS_STACK_SIZE cfg)) 0 |}.

Definition task_list_init : task_list_t :=
  {| nTasks := 0; current_task := 0; next_task := 0;
     tasks := replicate (Z.to_nat (RTOS_MAX_NUMBER_OF_TASKS cfg + 1)) zero_tcb;
     global_tick := 0 |}.

(** The machine at reset, before [main] runs: statics at their
    initialisers; [c] and [p] are whatever the start-up code left. *)
Definition machine_init (c : cpu_t) (p : periph_t) : machine :=
  {| task_list := task_list_init; first_run := 1;
     alive_state := 0; alive_count := 0; cpu := c; periph := p |}.

(** [&tasks[i].stack[k]] *)
Definition stack_addr (i k : Z) : Z := stack_base cfg i + k.

Definition reload_systick (m : machine) : machine :=
  set_periph (set_SysTick_VAL 0 (set_SysTick_LOAD (systick_count cfg) (periph m))) m.

Definition rtos_create_task (body : Z) (prio : Z) (autostart : rtos_autostart_e)
    (m : machine) : outcome (Z * machine) :=
  let l := task_list m in
  let n := nTasks l in
  if decide (RTOS_MAX_NUMBER_OF_TASKS cfg > n) then
    l ← tcb_modify n (set_priority (to_uint8 prio)) l;
    l ← tcb_modify n (set_local_tick 0) l;
    l ← tcb_modify n (set_task_body body) l;
    l ← tcb_modify n
          (set_sp (stack_addr n (RTOS_STACK_SIZE cfg - 1 - STACK_FRAME_SIZE))) l;
    l ← tcb_modify n
          (set_state (if decide (kStartSuspended = autostart)
                      then S_SUSPENDED else S_READY)) l;
    l ← tcb_store n
          (stack_store (RTOS_STACK_SIZE cfg - STACK_PC_OFFSET) (to_uint32 body)) l;
    l ← tcb_store n
          (stack_store (RTOS_STACK_SIZE cfg - STACK_PSR_OFFSET) STACK_PSR_DEFAULT) l;
    let retval := to_handle n in
    Done (retval, set_task_list (set_nTasks (to_uint8 (n + 1)) l) m)
  else Done (INVALID_TASK, m).

Definition rtos_get_clock (m : machine) : Z := global_tick (task_list m).

(** Phase 1 of the switch, inlined at the end of the dispatcher. *)
Definition context_switch (type : task_switch_type_e) (m : machine)
    : outcome machine :=
  let l := task_list m in
  l ← (if decide (first_run m = 0) then
         if decide (kFromNormalExec = type)
         then tcb_modify (current_task l) (set_sp (reg_sp (cpu m) - 9)) l
         else tcb_modify (current_task l) (set_sp (reg_sp (cpu m) + 9)) l
       else Done l);
  let l := set_current_task (next_task l) l in
  l ← tcb_modify (current_task l) (set_state S_RUNNING) l;
  Done (set_periph (set_ICSR_PENDSV true (periph m))
          (set_first_run 0 (set_task_list l m))).

(** The scan of the dispatcher; [highest] is an [int8_t], [index] a
    [uint8_t], and the comparison is made on [int]. *)
Fixpoint dispatcher_loop (fuel : nat) (l : task_list_t)
    (index next highest : Z) : outcome (Z * Z) :=
  match fuel with
  | O => Diverge
  | S fuel' =>
      if decide (index < nTasks l) then
        match tcb_at l index with
        | None => Fault
        | Some t =>
            if bool_decide (highest < priority t) && is_runnable t
            then dispatcher_loop fuel' l (to_uint8 (index + 1))
                   (to_handle index) (to_int8 (priority t))
            else dispatcher_loop fuel' l (to_uint8 (index + 1)) next highest
        end
      else Done (next, highest)
  end.

Definition dispatcher (type : task_switch_type_e) (m : machine)
    : outcome machine :=
  r ← dispatcher_loop loop_fuel (task_list m) 0 INVALID_TASK (-1);
  let next := r.1 in
  if decide (next ≠ current_task (task_list m)) then
    context_switch type (set_task_list (set_next_task next (task_list m)) m)
  else Done m.

Definition rtos_delay (ticks : Z) (m : machine) : outcome machine :=
  let l := task_list m in
  l ← tcb_modify (current_task l) (set_state S_WAITING) l;
  l ← tcb_modify (current_task l) (set_local_tick (to_tick ticks)) l;
  dispatcher kFromNormalExec (set_task_list l m).

Definition rtos_suspend_task (m : machine) : outcome machine :=
  let l := task_list m in
  l ← tcb_modify (current_task l) (set_state S_SUSPENDED) l;
  dispatcher kFromNormalExec (set_task_list l m).

Definition rtos_activate_task (task : Z) (m : machine) : outcome machine :=
  l ← tcb_modify task (set_state S_READY) (task_list m);
  dispatcher kFromNormalExec (set_task_list l m).

(** The body of the wake-up loop for one TCB. *)
Definition wake_step (t : rtos_tcb_t) : rtos_tcb_t :=
  if decide (state t = S_WAITING) then
    let t := set_local_tick (to_tick (local_tick t - 1)) t in
    if decide (local_tick t = 0) then set_state S_READY t else t
  else t.

(** [for (task_to_check = 0; task_to_check <= nTasks; task_to_check++)] *)
Fixpoint activate_loop (fuel : nat) (task_to_check : Z) (l : task_list_t)
    : outcome task_list_t :=
  match fuel with
  | O => Diverge
  | S fuel' =>
      if decide (task_to_check <= nTasks l) then
        l ← tcb_modify task_to_check wake_step l;
        activate_loop fuel' (to_uint8 (task_to_check + 1)) l
      else Done l
  end.

Definition activate_waiting_tasks (l : task_list_t) : outcome task_list_t :=
  activate_loop loop_fuel 0 l.

(** The is-alive signal. *)
Definition init_is_alive (m : machine) : machine :=
  set_periph (set_alive_pin 1 (periph m)) m.

Definition refresh_is_alive (m : machine) : machine :=
  let m := reload_systick m in
  if decide (to_uint32 (RTOS_IS_ALIVE_PERIOD_IN_US cfg
                          `quot` RTOS_TIC_PERIOD_IN_US cfg - 1)
             = alive_count m)
  then set_alive (if decide (alive_state m = 0) then 1 else 0) 0
         (set_periph (set_alive_pin (alive_state m) (periph m)) m)
  else set_alive (alive_state m) (to_uint32 (alive_count m + 1)) m.

(** [rtos_start_scheduler] up to its final [for (;;);], which the tick
    interrupt then preempts. The handle returned for the idle task is
    discarded, as in the source. *)
Definition rtos_start_scheduler (m : machine) : outcome machine :=
  m ← (if RTOS_ENABLE_IS_ALIVE cfg then
         let m := init_is_alive m in
         let m := set_task_list (set_global_tick 0 (task_list m)) m in
         let m := set_task_list (set_current_task INVALID_TASK (task_list m)) m in
         r ← rtos_create_task (idle_task cfg) 0 kAutoStart m;
         Done r.2
       else Done m);
  let m := set_periph (set_SysTick_CTRL
             (Z.lor (Z.lor SysTick_CTRL_CLKSOURCE_Msk SysTick_CTRL_TICKINT_Msk)
                    SysTick_CTRL_ENABLE_Msk) (periph m)) m in
  Done (reload_systick m).

Definition SysTick_Handler (m : machine) : outcome machine :=
  let m := if RTOS_ENABLE_IS_ALIVE cfg then refresh_is_alive m else m in
  let m := set_task_list
             (set_global_tick (to_tick (global_tick (task_list m) + 1))
                (task_list m)) m in
  l ← activate_waiting_tasks (task_list m);
  m ← dispatcher kFromISR (set_task_list l m);
  Done (reload_systick m).

(** [r0] receives the saved stack pointer of the current task and is
    copied to [r7], the frame pointer from which the handler's return
    sequence reloads SP. *)
Definition PendSV_Handler (m : machine) : outcome machine :=
  let m := set_periph (set_ICSR_PENDSV false (periph m)) m in
  match tcb_at (task_list m) (current_task (task_list m)) with
  | None => Fault
  | Some t =>
      let c := mk_cpu (reg_sp (cpu m)) (sp t) (reg_r7 (cpu m)) in
      Done (set_cpu (mk_cpu (reg_sp c) (reg_r0 c) (reg_r0 c)) m)
  end.

End Kernel.

(** ** Runs of the system

    What the outside can make the kernel do: the API calls, the two
    interrupts, and ordinary code moving the CPU registers in between. *)

Inductive event :=
  | EvCreate (body prio : Z) (autostart : rtos_autostart_e)
  | EvStart
  | EvDelay (ticks : Z)
  | EvSuspend
  | EvActivate (task : Z)
  | EvTick
  | EvPendSV
  | EvCpu (c : cpu_t).

Definition step (cfg : rtos_config) (e : event) (m : machine) : outcome machine :=
  match e with
  | EvCreate body prio autostart =>
      r ← rtos_create_task cfg body prio autostart m; Done r.2
  | EvStart => rtos_start_scheduler cfg m
  | EvDelay ticks => rtos_delay cfg ticks m
  | EvSuspend => rtos_suspend_task cfg m
  | EvActivate task => rtos_activate_task cfg task m
  | EvTick => SysTick_Handler cfg m
  | EvPendSV => PendSV_Handler m
  | EvCpu c => Done (set_cpu c m)
  end.

Fixpoint run (cfg : rtos_config) (es : list event) (m : machine) : outcome machine :=
  match es with
  | [] => Done m
  | e :: es => m ← step cfg e m; run cfg es m
  end.

(** The handles that a sequence of [rtos_create_task] calls returns. *)
Fixpoint create_all (cfg : rtos_config) (reqs : list (Z * Z * rtos_autostart_e))
    (m : machine) : outcome (list Z * machine) :=
  match reqs with
  | [] => Done ([], m)
  | (body, prio, autostart) :: reqs =>
      r ← rtos_create_task cfg body prio autostart m;
      rs ← create_all cfg reqs r.2;
      Done (r.1 :: rs.1, rs.2)
  end.

(** ** Predicates on the TCB store *)

Definition state_at (l : task_list_t) (i : Z) : option task_state_e :=
  state <$> tcb_at l i.

(** The created tasks are those below [nTasks]. *)
Definition created (l : task_list_t) : list rtos_tcb_t :=
  take (Z.to_nat (nTasks l)) (tasks l).



(** The wake-up pass as specified, step 2 of the tick engine: for every
    created task, if its state is WAITING, decrement its local tick; when the
    local tick reaches zero, transition to READY. *)
Definition spec_tick_task (cfg : rtos_config) (t : rtos_tcb_t) : rtos_tcb_t :=
  match state t with
  | S_WAITING =>
      let ticks := to_tick cfg (local_tick t - 1) in
      if decide (ticks = 0)
      then set_state S_READY (set_local_tick ticks t)
      else set_local_tick ticks t
  | _ => t
  end.

Definition spec_activate_waiting_tasks (cfg : rtos_config) (l : task_list_t)
    : task_list_t :=
  set_tasks ((spec_tick_task cfg <$> created l)
               ++ drop (Z.to_nat (nTasks l)) (tasks l)) l.

(** A configuration the kernel can be built with: the task count fits both
    the [uint8_t] counter and the handle type, and a stack holds the initial
    frame and the word below it that the saved stack pointer addresses. *)
Record wf_config (cfg : rtos_config) : Prop := {
  wf_max_lo : 0 <= RTOS_MAX_NUMBER_OF_TASKS cfg;
  wf_max_hi : RTOS_MAX_NUMBER_OF_TASKS cfg < 255;
  wf_handle_bits : 1 <= handle_bits cfg;
  wf_handle : RTOS_MAX_NUMBER_OF_TASKS cfg < 2 ^ (handle_bits cfg - 1);
  wf_tick_bits : 1 <= tick_bits cfg;
  wf_stack : STACK_FRAME_SIZE + 1 <= RTOS_STACK_SIZE cfg
}.

(** The shape every store built from [task_list_init] keeps: the array
    and the stacks have their declared sizes, a priority is a [uint8_t], and
    no more tasks are created than the configuration allows. *)
Record wf_tcb (cfg : rtos_config) (t : rtos_tcb_t) : Prop := {
  wf_stack_length : length (stack t) = Z.to_nat (RTOS_STACK_SIZE cfg);
  wf_priority : 0 <= priority t < 256
}.

Record wf_store (cfg : rtos_config) (l : task_list_t) : Prop := {
  wf_length : length (tasks l) = Z.to_nat (RTOS_MAX_NUMBER_OF_TASKS cfg + 1);
  wf_nTasks : 0 <= nTasks l <= RTOS_MAX_NUMBER_OF_TASKS cfg;
  wf_tcbs : Forall (wf_tcb cfg) (tasks l)
}.

(** ** Concrete configurations and scenarios *)

(** Room for two user tasks, 8-bit handles, 64-bit ticks. *)
Definition cfg_two : rtos_config :=
  {| RTOS_MAX_NUMBER_OF_TASKS := 2; RTOS_STACK_SIZE := 12;
     RTOS_ENABLE_IS_ALIVE := true;
     RTOS_TIC_PERIOD_IN_US := 1000; RTOS_IS_ALIVE_PERIOD_IN_US := 500000;
     handle_bits := 8; tick_bits := 64;
     stack_base := fun i => 1000 + 100 * i;
     idle_task := 64; systick_count := 120000 |}.

Definition reset_two : machine :=
  machine_init cfg_two (mk_cpu 5000 0 0) (mk_periph 0 0 0 false 0).

(** The TCB that a successful [rtos_create_task] leaves in slot [n], given
    the TCB [t] found there. *)
Definition created_tcb (cfg : rtos_config) (n body prio : Z)
    (autostart : rtos_autostart_e) (t : rtos_tcb_t) : rtos_tcb_t :=
  {| priority := to_uint8 prio;
     state := if decide (kStartSuspended = autostart) then S_SUSPENDED else S_READY;
     sp := stack_addr cfg n (RTOS_STACK_SIZE cfg - 1 - STACK_FRAME_SIZE);
     task_body := body;
     local_tick := 0;
     reserved := reserved t;
     stack := <[Z.to_nat (RTOS_STACK_SIZE cfg - STACK_PSR_OFFSET) := STACK_PSR_DEFAULT]>
                (<[Z.to_nat (RTOS_STACK_SIZE cfg - STACK_PC_OFFSET) := to_uint32 body]>
                   (stack t)) |}.

(** The dispatcher's scan as a fold over the TCBs it visits, the first of
    which has index [index]. *)
Fixpoint scan (cfg : rtos_config) (ts : list rtos_tcb_t) (index next highest : Z)
    : Z * Z :=
  match ts with
  | [] => (next, highest)
  | t :: ts =>
      if bool_decide (highest < priority t) && is_runnable t
      then scan cfg ts (index + 1) (to_handle cfg index) (to_int8 (priority t))
      else scan cfg ts (index + 1) next highest
  end.

(** The TCB array after the wake-up step has been applied to the [k] TCBs
    from index [i] on. *)
Definition wake_range (cfg : rtos_config) (i k : nat) (ts : list rtos_tcb_t)
    : list rtos_tcb_t :=
  take i ts ++ (wake_step cfg <$> take k (drop i ts)) ++ drop (i + k) ts.

(** The machine that a run from [reset_two] ends in. *)
Definition after_two (es : list event) : machine :=
  match run cfg_two es reset_two with
  | Done m => m
  | _ => reset_two
  end.

(** One user task of priority 2 (handle 0) and the idle task (handle 1);
    the user task has been dispatched by the first tick and is running. *)
Definition user_running : machine :=
  after_two [EvCreate 512 2 kAutoStart; EvStart; EvTick; EvPendSV].

(** The user task then called [rtos_delay (1)]: it waits and the idle task
    runs. *)
Definition idle_running : machine :=
  after_two [EvCreate 512 2 kAutoStart; EvStart; EvTick; EvPendSV;
             EvDelay 1; EvPendSV].

(** The next tick wakes the user task, which preempts the idle task. *)
Definition idle_preempted : machine :=
  after_two [EvCreate 512 2 kAutoStart; EvStart; EvTick; EvPendSV;
             EvDelay 1; EvPendSV; EvTick].

(** ** Further predicates *)

(** Two TCBs that agree on what the scheduler never writes once a task is
    created: priority, entry function, reserved words and stack contents. *)
Definition same_static (t t' : rtos_tcb_t) : Prop :=
  priority t' = priority t /\ task_body t' = task_body t
  /\ reserved t' = reserved t /\ stack t' = stack t.

(** The stack pointer that [context_switch] records for the outgoing task. *)
Definition saved_sp (type : task_switch_type_e) (m : machine) : Z :=
  if decide (kFromNormalExec = type)
  then reg_sp (cpu m) - 9 else reg_sp (cpu m) + 9.

(** The debugging words of every TCB are as [task_list = { 0 }] left them. *)
Definition reserved_empty (l : task_list_t) : Prop :=
  Forall (fun t => reserved t = replicate 10 0) (tasks l).

(** [n] tick interrupts in a row. *)
Definition ticks (n : nat) : list event := replicate n EvTick.

(** The machine on which the tick handler starts its wake-up pass: the
    heartbeat refreshed and the global tick advanced. *)
Definition tick_entry (cfg : rtos_config) (m : machine) : machine :=
  let m := if RTOS_ENABLE_IS_ALIVE cfg then refresh_is_alive cfg m else m in
  set_task_list
    (set_global_tick (to_tick cfg (global_tick (task_list m) + 1)) (task_list m)) m.

#[global] Instance cpu_t_eq_dec : EqDecision cpu_t.
Proof. solve_decision. Defined.

#[global] Instance event_eq_dec : EqDecision event.
Proof. solve_decision. Defined.

(** The number of tick interrupts in a run. *)
Definition tick_count (es : list event) : nat :=
  length (filter (fun e => e = EvTick) es).

(** Every created task still has the saved stack pointer that
    [rtos_create_task] gave it. *)
Definition sp_initial (cfg : rtos_config) (l : task_list_t) : Prop :=
  forall i t, 0 <= i < nTasks l -> tcb_at l i = Some t ->
    sp t = stack_addr cfg i (RTOS_STACK_SIZE cfg - 1 - STACK_FRAME_SIZE).

(** ** Further scenarios *)

(** One user task and the idle task created, the scheduler started, no
    tick yet. *)
Definition started : machine :=
  after_two [EvCreate 512 2 kAutoStart; EvStart].

(** One task created, the scheduler not started. *)
Definition one_created : machine :=
  after_two [EvCreate 512 2 kAutoStart].

(** One task created suspended, the scheduler not started. *)
Definition one_suspended : machine :=
  after_two [EvCreate 512 2 kStartSuspended].

(** Priorities 200 and 5, both READY, the scheduler started. *)
Definition two_priorities : machine :=
  after_two [EvCreate 512 200 kAutoStart; EvCreate 768 5 kAutoStart; EvStart].

(** A running task of priority 1 and a suspended task of priority 2. *)
Definition low_running : machine :=
  after_two [EvCreate 512 1 kAutoStart; EvCreate 768 2 kStartSuspended;
             EvStart; EvTick; EvPendSV].



(** The result of a completed computation, [d] otherwise. *)
Definition done_or {A : Type} (d : A) (o : outcome A) : A :=
  match o with
  | Done a => a
  | _ => d
  end.

(** The first dispatch after the start. *)
Definition first_dispatch : machine :=
  done_or started (dispatcher cfg_two kFromISR started).

(** * Properties *)

(** ** Fixed-width integers *)

Lemma wrap_unsigned_small bits z :
  0 <= z < 2 ^ bits -> wrap_unsigned bits z = z.
Proof. intros Hz. unfold wrap_unsigned. by apply Z.mod_small. Qed.

Lemma wrap_signed_small bits z :
  1 <= bits -> - 2 ^ (bits - 1) <= z < 2 ^ (bits - 1) -> wrap_signed bits z = z.
Proof.
  intros Hb Hz. unfold wrap_signed.
  replace (2 ^ bits) with (2 * 2 ^ (bits - 1)).
  - rewrite Z.mod_small; lia.
  - rewrite <- Z.pow_succ_r by lia. f_equal. lia.
Qed.

Lemma to_uint8_small z : 0 <= z < 256 -> to_uint8 z = z.
Proof. intros Hz. by apply wrap_unsigned_small. Qed.

Lemma to_int8_small z : -128 <= z < 128 -> to_int8 z = z.
Proof. intros Hz. apply wrap_signed_small; [lia | by simpl]. Qed.

Lemma to_uint8_range z : 0 <= to_uint8 z < 256.
Proof. unfold to_uint8, wrap_unsigned. apply Z.mod_pos_bound. lia. Qed.

Lemma to_handle_small cfg z :
  wf_config cfg -> 0 <= z <= RTOS_MAX_NUMBER_OF_TASKS cfg -> to_handle cfg z = z.
Proof.
  intros [] Hz. apply wrap_signed_small; [done |].
  assert (0 < 2 ^ (handle_bits cfg - 1)) by (apply Z.pow_pos_nonneg; lia). lia.
Qed.

Lemma to_tick_minus_one cfg :
  1 <= tick_bits cfg -> to_tick cfg (0 - 1) = 2 ^ tick_bits cfg - 1 /\ to_tick cfg (0 - 1) <> 0.
Proof.
  intros Hb. unfold to_tick, wrap_unsigned.
  assert (2 <= 2 ^ tick_bits cfg).
  { change 2 with (2 ^ 1) at 1. apply Z.pow_le_mono_r; lia. }
  assert ((0 - 1) mod 2 ^ tick_bits cfg = 2 ^ tick_bits cfg - 1) as ->; [| lia].
  symmetry. apply (Z.mod_unique_pos _ _ (-1)); lia.
Qed.

(** ** Reading and writing one TCB *)

Lemma tcb_at_Some l i t :
  tcb_at l i = Some t -> 0 <= i < Z.of_nat (length (tasks l)).
Proof.
  unfold tcb_at. case_decide; [| done]. intros Hl.
  apply lookup_lt_Some in Hl. lia.
Qed.

Lemma tcb_at_is_Some l i :
  0 <= i < Z.of_nat (length (tasks l)) -> is_Some (tcb_at l i).
Proof.
  intros Hi. unfold tcb_at. case_decide; [| lia].
  apply lookup_lt_is_Some. lia.
Qed.

Lemma tcb_at_put_eq l i t t' :
  tcb_at l i = Some t -> tcb_at (tcb_put i t' l) i = Some t'.
Proof.
  intros Hl. pose proof (tcb_at_Some _ _ _ Hl) as Hi.
  unfold tcb_at, tcb_put in *. simpl. case_decide; [| lia].
  apply list_lookup_insert_eq. lia.
Qed.

Lemma tcb_at_put_ne l i j t' :
  0 <= i -> i <> j -> tcb_at (tcb_put i t' l) j = tcb_at l j.
Proof.
  intros Hi Hne. unfold tcb_at, tcb_put. simpl. case_decide; [| done].
  apply list_lookup_insert_ne. lia.
Qed.

Lemma tcb_put_put l i t1 t2 :
  tcb_put i t2 (tcb_put i t1 l) = tcb_put i t2 l.
Proof. unfold tcb_put. simpl. unfold set_tasks. simpl. by rewrite list_insert_insert_eq. Qed.

Lemma tcb_modify_Some i f l t :
  tcb_at l i = Some t -> tcb_modify i f l = Done (tcb_put i (f t) l).
Proof. intros Hl. unfold tcb_modify. by rewrite Hl. Qed.

Lemma tcb_modify_Done i f l l' :
  tcb_modify i f l = Done l' ->
  exists t, tcb_at l i = Some t /\ l' = tcb_put i (f t) l.
Proof.
  unfold tcb_modify. destruct (tcb_at l i) as [t |] eqn:Hl; [| done].
  intros [= <-]. eauto.
Qed.

Lemma bind_Done {A B} (o : outcome A) (k : A -> outcome B) b :
  o ≫= k = Done b -> exists a, o = Done a /\ k a = Done b.
Proof. destruct o; [eauto | done | done]. Qed.

Lemma state_at_put_eq l i t t' :
  tcb_at l i = Some t -> state_at (tcb_put i t' l) i = Some (state t').
Proof. intros Hl. unfold state_at. by rewrite (tcb_at_put_eq _ _ _ _ Hl). Qed.

Lemma state_at_put_ne l i j t' :
  0 <= i -> i <> j -> state_at (tcb_put i t' l) j = state_at l j.
Proof. intros Hi Hne. unfold state_at. by rewrite tcb_at_put_ne. Qed.

(** Writing a TCB back with the state it had changes no state. *)
Lemma state_at_put_same l i j t t' :
  tcb_at l i = Some t -> state t' = state t ->
  state_at (tcb_put i t' l) j = state_at l j.
Proof.
  intros Hl Hst. pose proof (tcb_at_Some _ _ _ Hl) as Hi.
  destruct (decide (i = j)) as [<- | Hne].
  - rewrite (state_at_put_eq _ _ _ _ Hl). unfold state_at. rewrite Hl. simpl. by f_equal.
  - apply state_at_put_ne; [lia | done].
Qed.

(** ** The context switch *)

(** What a completed [context_switch] did to the store. *)
Lemma context_switch_Done type m m' :
  context_switch type m = Done m' ->
  let l := task_list m in
  exists l1 t,
    (first_run m <> 0 /\ l1 = l \/
     first_run m = 0 /\ exists t0 v, tcb_at l (current_task l) = Some t0
       /\ v = (if decide (kFromNormalExec = type)
               then reg_sp (cpu m) - 9 else reg_sp (cpu m) + 9)
       /\ l1 = tcb_put (current_task l) (set_sp v t0) l)
    /\ tcb_at l1 (next_task l) = Some t
    /\ m' = set_periph (set_ICSR_PENDSV true (periph m))
              (set_first_run 0
                 (set_task_list
                    (tcb_put (next_task l) (set_state S_RUNNING t)
                       (set_current_task (next_task l) l1)) m)).
Proof.
  unfold context_switch. intros Hcs.
  apply bind_Done in Hcs as (l1 & Hsave & Hcs).
  apply bind_Done in Hcs as (l2 & Hrun & Hcs).
  apply tcb_modify_Done in Hrun as (t & Ht & ->).
  injection Hcs as <-.
  assert (next_task l1 = next_task (task_list m)) as Hnext.
  { case_decide; [| by injection Hsave as <-].
    case_decide; apply tcb_modify_Done in Hsave as (? & _ & ->); done. }
  simpl in Ht. rewrite Hnext in *.
  exists l1, t. split; [| split; [exact Ht | done]].
  case_decide as Hfirst.
  - right. split; [done |].
    case_decide; apply tcb_modify_Done in Hsave as (t0 & Ht0 & ->);
      exists t0; eexists; (split; [exact Ht0 | split; reflexivity]).
  - left. split; [done |]. by injection Hsave as <-.
Qed.

(** A switch marks the incoming task RUNNING and changes no other state. *)
Lemma context_switch_states type m m' :
  context_switch type m = Done m' ->
  current_task (task_list m') = next_task (task_list m)
  /\ state_at (task_list m') (next_task (task_list m)) = Some S_RUNNING
  /\ forall i, i <> next_task (task_list m) ->
       state_at (task_list m') i = state_at (task_list m) i.
Proof.
  intros Hcs. apply context_switch_Done in Hcs as (l1 & t & Hsave & Ht & ->).
  simpl. split; [done |]. split.
  - by apply (state_at_put_eq _ _ t).
  - intros i Hi. pose proof (tcb_at_Some _ _ _ Ht) as Hn.
    rewrite state_at_put_ne by (simpl; lia).
    change (state_at (set_current_task (next_task (task_list m)) l1) i)
      with (state_at l1 i).
    destruct Hsave as [[_ ->] | (_ & t0 & v & Ht0 & _ & ->)]; [done |].
    by apply (state_at_put_same _ _ _ t0).
Qed.

(** With the outgoing (after the first switch) and the incoming TCB inside
    the array, the switch completes. *)
Lemma context_switch_total type m :
  let l := task_list m in
  (first_run m = 0 -> is_Some (tcb_at l (current_task l))) ->
  is_Some (tcb_at l (next_task l)) ->
  exists m', context_switch type m = Done m'.
Proof.
  intros l Hcur [tn Htn]. unfold context_switch. fold l.
  destruct (decide (first_run m = 0)) as [Hfirst | Hfirst].
  - destruct (Hcur Hfirst) as [t0 Ht0].
    assert (forall v, exists t, tcb_at (tcb_put (current_task l) (set_sp v t0) l)
                                  (next_task l) = Some t) as Hnext.
    { intros v. destruct (decide (current_task l = next_task l)) as [<- | Hne].
      - rewrite (tcb_at_put_eq _ _ _ _ Ht0). eauto.
      - rewrite tcb_at_put_ne; [eauto | | done].
        apply tcb_at_Some in Ht0. lia. }
    case_decide; rewrite (tcb_modify_Some _ _ _ _ Ht0); simpl;
      match goal with |- context [set_sp ?v t0] => destruct (Hnext v) as [t Ht] end;
      erewrite tcb_modify_Some by exact Ht; eauto.
  - simpl. erewrite tcb_modify_Some by exact Htn. eauto.
Qed.

(** C6: phase 1 of the context switch. Where the accesses are inside the
    TCB array, [context_switch] completes; on the first switch ([first_run]
    still set) no saved stack pointer is written; on a later switch the
    outgoing task's saved stack pointer becomes the observed SP minus 9 words
    when the origin is thread context and plus 9 words when it is the tick
    interrupt; in both cases [next_task] becomes [current_task], that task's
    state is RUNNING, [first_run] is cleared and PendSV is pended. *)
Theorem context_switch_phase1 (type : task_switch_type_e) (m : machine) :
  let l := task_list m in
  (first_run m = 0 -> is_Some (tcb_at l (current_task l))) ->
  is_Some (tcb_at l (next_task l)) ->
  exists m',
    context_switch type m = Done m'
    /\ (first_run m <> 0 ->
          forall i, sp <$> tcb_at (task_list m') i = sp <$> tcb_at l i)
    /\ (first_run m = 0 ->
          sp <$> tcb_at (task_list m') (current_task l)
          = Some (match type with
                  | kFromNormalExec => reg_sp (cpu m) - 9
                  | kFromISR => reg_sp (cpu m) + 9
                  end))
    /\ current_task (task_list m') = next_task l
    /\ state_at (task_list m') (next_task l) = Some S_RUNNING
    /\ first_run m' = 0
    /\ ICSR_PENDSV (periph m') = true.
Proof.
  intros l Hcur [tn Htn].
  destruct (context_switch_total type m Hcur (ex_intro _ tn Htn)) as [m' Hcs].
  exists m'. split; [done |].
  pose proof (context_switch_states _ _ _ Hcs) as (Hc & Hrun & _).
  pose proof (context_switch_Done _ _ _ Hcs) as (l1 & t & Hsave & Ht & ->).
  fold l in Hsave, Ht, Hc, Hrun |- *. simpl.
  assert (0 <= next_task l) as Hn by (apply tcb_at_Some in Htn; lia).
  repeat split; try done.
  - intros Hfirst i. destruct Hsave as [[_ ->] | [? _]]; [| done].
    destruct (decide (next_task l = i)) as [<- | Hne].
    + rewrite (tcb_at_put_eq _ _ t) by done.
      change (tcb_at (set_current_task (next_task l) l) (next_task l))
        with (tcb_at l (next_task l)) in Ht. by rewrite Ht.
    + by rewrite tcb_at_put_ne.
  - intros Hfirst. destruct Hsave as [[? _] | (_ & t0 & v & Ht0 & -> & ->)]; [done |].
    assert (match type with
            | kFromISR => reg_sp (cpu m) + 9
            | kFromNormalExec => reg_sp (cpu m) - 9
            end = (if decide (kFromNormalExec = type)
                   then reg_sp (cpu m) - 9 else reg_sp (cpu m) + 9)) as ->.
    { by destruct type; case_decide. }
    set (v := if decide (kFromNormalExec = type) then _ else _) in *.
    change (tcb_at (set_current_task (next_task l)
                      (tcb_put (current_task l) (set_sp v t0) l)) (next_task l))
      with (tcb_at (tcb_put (current_task l) (set_sp v t0) l) (next_task l)) in Ht.
    destruct (decide (next_task l = current_task l)) as [Heq | Hne].
    + rewrite Heq in *. rewrite (tcb_at_put_eq _ _ _ _ Ht0) in Ht. injection Ht as <-.
      erewrite tcb_at_put_eq; [done |].
      change (tcb_at (set_current_task (current_task l)
                        (tcb_put (current_task l) (set_sp v t0) l)) (current_task l))
        with (tcb_at (tcb_put (current_task l) (set_sp v t0) l) (current_task l)).
      by apply (tcb_at_put_eq _ _ t0).
    + rewrite tcb_at_put_ne by done.
      change (tcb_at (set_current_task (next_task l)
                        (tcb_put (current_task l) (set_sp v t0) l)) (current_task l))
        with (tcb_at (tcb_put (current_task l) (set_sp v t0) l) (current_task l)).
      by rewrite (tcb_at_put_eq _ _ _ _ Ht0).
Qed.

(** ** Creating a task *)

Lemma bind_Done_l {A B} (a : A) (k : A -> outcome B) : Done a ≫= k = k a.
Proof. reflexivity. Qed.

Lemma tcb_store_Some i f l t t' :
  tcb_at l i = Some t -> f t = Done t' -> tcb_store i f l = Done (tcb_put i t' l).
Proof. intros Hl Hf. unfold tcb_store. by rewrite Hl, Hf. Qed.

Lemma stack_store_Done i v t :
  0 <= i < Z.of_nat (length (stack t)) ->
  stack_store i v t = Done (set_stack (<[Z.to_nat i := v]> (stack t)) t).
Proof. intros Hi. unfold stack_store. by case_decide. Qed.

Lemma create_task_full cfg body prio autostart m :
  RTOS_MAX_NUMBER_OF_TASKS cfg <= nTasks (task_list m) ->
  rtos_create_task cfg body prio autostart m = Done (INVALID_TASK, m).
Proof. intros Hfull. unfold rtos_create_task. case_decide; [lia | done]. Qed.

Lemma create_task_room cfg body prio autostart m t :
  let l := task_list m in
  nTasks l < RTOS_MAX_NUMBER_OF_TASKS cfg ->
  tcb_at l (nTasks l) = Some t ->
  length (stack t) = Z.to_nat (RTOS_STACK_SIZE cfg) ->
  2 <= RTOS_STACK_SIZE cfg ->
  rtos_create_task cfg body prio autostart m
  = Done (to_handle cfg (nTasks l),
          set_task_list
            (set_nTasks (to_uint8 (nTasks l + 1))
               (tcb_put (nTasks l) (created_tcb cfg (nTasks l) body prio autostart t) l))
            m).
Proof.
  intros l Hroom Ht Hlen Hsize. unfold rtos_create_task. fold l.
  case_decide; [| lia].
  rewrite (tcb_modify_Some _ _ _ _ Ht), bind_Done_l.
  do 4 (erewrite tcb_modify_Some by (eapply tcb_at_put_eq; first [exact Ht | eapply tcb_at_put_eq; exact Ht]);
        rewrite bind_Done_l, tcb_put_put).
  erewrite tcb_store_Some;
    [ | eapply tcb_at_put_eq; exact Ht
      | apply stack_store_Done; simpl; unfold STACK_PC_OFFSET; lia ].
  rewrite bind_Done_l, tcb_put_put.
  erewrite tcb_store_Some;
    [ | eapply tcb_at_put_eq; exact Ht
      | apply stack_store_Done; simpl; rewrite length_insert;
        unfold STACK_PSR_OFFSET; lia ].
  rewrite bind_Done_l, tcb_put_put. reflexivity.
Qed.

Lemma wf_store_tcb_at cfg l i :
  wf_store cfg l -> 0 <= i <= RTOS_MAX_NUMBER_OF_TASKS cfg ->
  exists t, tcb_at l i = Some t /\ wf_tcb cfg t.
Proof.
  intros [Hlen _ Htcbs] Hi.
  destruct (tcb_at_is_Some l i) as [t Ht]; [lia |].
  exists t. split; [done |].
  unfold tcb_at in Ht. case_decide; [| done].
  rewrite Forall_lookup in Htcbs. by apply (Htcbs _ _ Ht).
Qed.

Lemma wf_store_tcb_at_wf cfg l i t :
  wf_store cfg l -> tcb_at l i = Some t -> wf_tcb cfg t.
Proof.
  intros [_ _ Htcbs] Ht. unfold tcb_at in Ht. case_decide; [| done].
  rewrite Forall_lookup in Htcbs. by apply (Htcbs _ _ Ht).
Qed.

(** C7: the initial frame. After a successful [rtos_create_task] the new
    task's saved stack pointer addresses a word of that task's own stack
    (and lies above its base when the stack is larger than the frame plus
    one word), the program-counter slot of the exception frame seeded in the
    top [STACK_FRAME_SIZE] words holds the entry address and the status-word
    slot holds [STACK_PSR_DEFAULT]. *)
Theorem create_task_initial_frame (cfg : rtos_config) (body prio : Z)
    (autostart : rtos_autostart_e) (m m' : machine) (h : Z) :
  wf_config cfg ->
  wf_store cfg (task_list m) ->
  0 <= body < 2 ^ 32 ->
  rtos_create_task cfg body prio autostart m = Done (h, m') ->
  h <> INVALID_TASK ->
  exists t,
    tcb_at (task_list m') h = Some t
    /\ length (stack t) = Z.to_nat (RTOS_STACK_SIZE cfg)
    /\ stack_addr cfg h 0 <= sp t < stack_addr cfg h (RTOS_STACK_SIZE cfg)
    /\ (STACK_FRAME_SIZE + 1 < RTOS_STACK_SIZE cfg -> stack_addr cfg h 0 < sp t)
    /\ sp t + 1 + STACK_FRAME_SIZE = stack_addr cfg h (RTOS_STACK_SIZE cfg)
    /\ stack t !! Z.to_nat (RTOS_STACK_SIZE cfg - STACK_PC_OFFSET) = Some body
    /\ stack t !! Z.to_nat (RTOS_STACK_SIZE cfg - STACK_PSR_OFFSET)
       = Some STACK_PSR_DEFAULT.
Proof.
  intros Hcfg Hwf Hbody Hcreate Hh.
  pose proof Hcfg as [Hmax_lo Hmax_hi _ _ _ Hstack].
  pose proof Hwf as [_ Hn _].
  unfold STACK_FRAME_SIZE in Hstack.
  destruct (decide (RTOS_MAX_NUMBER_OF_TASKS cfg <= nTasks (task_list m))) as [Hfull | Hroom].
  { rewrite create_task_full in Hcreate by done. by injection Hcreate as <- _. }
  destruct (wf_store_tcb_at cfg (task_list m) (nTasks (task_list m)) Hwf)
    as (t & Ht & [Hlen _]); [lia |].
  rewrite (create_task_room _ _ _ _ _ t) in Hcreate by (done || lia).
  injection Hcreate as <- <-.
  rewrite to_handle_small by (done || lia).
  exists (created_tcb cfg (nTasks (task_list m)) body prio autostart t).
  split; [by apply (tcb_at_put_eq _ _ t) |].
  unfold created_tcb, stack_addr, STACK_FRAME_SIZE, STACK_PC_OFFSET, STACK_PSR_OFFSET.
  simpl. rewrite !length_insert.
  repeat split; try lia.
  - rewrite list_lookup_insert_ne by lia.
    rewrite list_lookup_insert_eq by lia.
    unfold to_uint32. by rewrite wrap_unsigned_small.
  - rewrite list_lookup_insert_eq; [done |]. rewrite length_insert. lia.
Qed.

(** ** The dispatcher *)

Lemma tcb_at_drop l i t :
  tcb_at l i = Some t ->
  drop (Z.to_nat i) (tasks l) = t :: drop (S (Z.to_nat i)) (tasks l).
Proof.
  unfold tcb_at. case_decide; [| done]. intros Ht. by apply drop_S.
Qed.

(** The loop visits the TCBs [index .. nTasks - 1] in order and always
    leaves within its fuel. *)
Lemma dispatcher_loop_scan cfg l (k : nat) :
  forall fuel index next highest,
    0 <= index ->
    index + Z.of_nat k = nTasks l ->
    nTasks l <= 255 ->
    nTasks l <= Z.of_nat (length (tasks l)) ->
    (k < fuel)%nat ->
    dispatcher_loop cfg fuel l index next highest
    = Done (scan cfg (take k (drop (Z.to_nat index) (tasks l))) index next highest).
Proof.
  induction k as [| k IH]; intros fuel index next highest Hi Hk Hn Hlen Hfuel;
    (destruct fuel as [| fuel]; [lia |]); simpl.
  - case_decide; [lia | done].
  - case_decide; [| lia].
    destruct (tcb_at_is_Some l index) as [t Ht]; [lia |].
    rewrite Ht, (tcb_at_drop _ _ _ Ht). simpl.
    rewrite to_uint8_small by lia.
    replace (S (Z.to_nat index)) with (Z.to_nat (index + 1)) by lia.
    destruct (bool_decide (highest < priority t) && is_runnable t);
      apply IH; lia.
Qed.

(** The scan returns the [next] it started from or the handle of a
    runnable TCB that it visited. *)
Lemma scan_next cfg ts :
  forall index next highest,
    (scan cfg ts index next highest).1 = next
    \/ exists (k : nat) t, ts !! k = Some t /\ is_runnable t = true
         /\ (scan cfg ts index next highest).1 = to_handle cfg (index + Z.of_nat k).
Proof.
  induction ts as [| t ts IH]; intros index next highest; simpl; [by left |].
  destruct (bool_decide (highest < priority t) && is_runnable t) eqn:Htake.
  - apply andb_true_iff in Htake as [_ Hrun].
    destruct (IH (index + 1) (to_handle cfg index) (to_int8 (priority t)))
      as [-> | (k & u & Hu & Hrun' & ->)]; right.
    + exists 0%nat, t. repeat split; [done |]. f_equal. lia.
    + exists (S k), u. repeat split; [done.. |]. f_equal. lia.
  - destruct (IH (index + 1) next highest) as [-> | (k & u & Hu & Hrun' & ->)];
      [by left | right].
    exists (S k), u. repeat split; [done.. |]. f_equal. lia.
Qed.

(** As soon as one runnable TCB beats the starting [highest], the scan
    returns the handle of a runnable TCB. *)
Lemma scan_found cfg ts :
  forall index next highest,
    (exists (k : nat) t, ts !! k = Some t /\ is_runnable t = true
                         /\ highest < priority t) ->
    exists (k : nat) t, ts !! k = Some t /\ is_runnable t = true
      /\ (scan cfg ts index next highest).1 = to_handle cfg (index + Z.of_nat k).
Proof.
  induction ts as [| t ts IH]; intros index next highest (k & u & Hu & Hrun & Hhi);
    [done |].
  simpl. destruct (bool_decide (highest < priority t) && is_runnable t) eqn:Htake.
  - apply andb_true_iff in Htake as [_ Hrunt].
    destruct (scan_next cfg ts (index + 1) (to_handle cfg index) (to_int8 (priority t)))
      as [-> | (j & v & Hv & Hrunv & ->)].
    + exists 0%nat, t. repeat split; [done |]. f_equal. lia.
    + exists (S j), v. repeat split; [done.. |]. f_equal. lia.
  - destruct k as [| k].
    + injection Hu as ->. rewrite Hrun, andb_true_r in Htake.
      apply bool_decide_eq_false in Htake. lia.
    + destruct (IH (index + 1) next highest) as (j & v & Hv & Hrunv & ->);
        [by exists k, u |].
      exists (S j), v. repeat split; [done.. |]. f_equal. lia.
Qed.

Lemma dispatcher_Done cfg type m m' :
  dispatcher cfg type m = Done m' ->
  exists r, dispatcher_loop cfg loop_fuel (task_list m) 0 INVALID_TASK (-1) = Done r
    /\ (r.1 = current_task (task_list m) /\ m' = m
        \/ r.1 <> current_task (task_list m)
           /\ context_switch type
                (set_task_list (set_next_task r.1 (task_list m)) m) = Done m').
Proof.
  unfold dispatcher. intros Hd. apply bind_Done in Hd as (r & Hloop & Hd).
  exists r. split; [done |]. case_decide as Hne.
  - by right.
  - left. split; [| by injection Hd]. by destruct (decide (r.1 = current_task (task_list m))).
Qed.

(** The dispatcher either returns without touching anything or switches:
    the task it switches to is marked RUNNING and no other state changes. *)
Lemma dispatcher_states cfg type m m' :
  dispatcher cfg type m = Done m' ->
  let l := task_list m in
  let l' := task_list m' in
  m' = m
  \/ current_task l' <> current_task l
     /\ state_at l' (current_task l') = Some S_RUNNING
     /\ forall i, i <> current_task l' -> state_at l' i = state_at l i.
Proof.
  intros Hd l l'. apply dispatcher_Done in Hd as (r & _ & [[_ ->] | [Hne Hcs]]);
    [by left | right].
  apply context_switch_states in Hcs as (Hc & Hrun & Hother). simpl in *.
  subst l'. rewrite Hc. done.
Qed.

(** ** The wake-up pass *)

Lemma set_tasks_id l : set_tasks (tasks l) l = l.
Proof. by destruct l. Qed.

Lemma wake_range_step cfg (i k : nat) ts t :
  ts !! i = Some t ->
  wake_range cfg (S i) k (<[i := wake_step cfg t]> ts) = wake_range cfg i (S k) ts.
Proof.
  intros Ht. unfold wake_range.
  assert (i < length ts)%nat as Hi by (by eapply lookup_lt_Some).
  rewrite (take_S_r _ _ (wake_step cfg t)) by (by apply list_lookup_insert_eq).
  rewrite take_insert_ge by lia.
  rewrite !drop_insert_lt by lia.
  rewrite (drop_S _ _ _ Ht). simpl.
  rewrite <- app_assoc. simpl.
  by replace (i + S k)%nat with (S (i + k)) by lia.
Qed.

(** The loop applies the wake-up step once to each of the TCBs
    [task_to_check .. nTasks], the slot at [nTasks] included, and leaves
    within its fuel as long as [nTasks] is not the largest [uint8_t]. *)
Lemma activate_loop_range cfg (k : nat) :
  forall fuel i l,
    0 <= i ->
    i + Z.of_nat k = nTasks l + 1 ->
    nTasks l < 255 ->
    nTasks l < Z.of_nat (length (tasks l)) ->
    (k < fuel)%nat ->
    activate_loop cfg fuel i l
    = Done (set_tasks (wake_range cfg (Z.to_nat i) k (tasks l)) l).
Proof.
  induction k as [| k IH]; intros fuel i l Hi Hk Hn Hlen Hfuel;
    (destruct fuel as [| fuel]; [lia |]); simpl.
  - case_decide; [lia |]. unfold wake_range. simpl.
    rewrite Nat.add_0_r, take_drop. by rewrite set_tasks_id.
  - case_decide; [| lia].
    destruct (tcb_at_is_Some l i) as [t Ht]; [lia |].
    rewrite (tcb_modify_Some _ _ _ _ Ht), bind_Done_l.
    rewrite to_uint8_small by lia.
    rewrite IH; [| lia | simpl; lia | done | simpl; rewrite length_insert; lia | lia].
    unfold tcb_at in Ht. case_decide; [| done].
    unfold tcb_put. simpl.
    replace (Z.to_nat (i + 1)) with (S (Z.to_nat i)) by lia.
    by rewrite (wake_range_step _ _ _ _ _ Ht).
Qed.

Lemma activate_waiting_tasks_range cfg l :
  0 <= nTasks l < 255 ->
  nTasks l < Z.of_nat (length (tasks l)) ->
  activate_waiting_tasks cfg l
  = Done (set_tasks (wake_range cfg 0 (Z.to_nat (nTasks l + 1)) (tasks l)) l).
Proof.
  intros Hn Hlen. unfold activate_waiting_tasks.
  apply (activate_loop_range cfg (Z.to_nat (nTasks l + 1))); unfold loop_fuel; lia.
Qed.

(** The TCB at index [j] after the pass: stepped once if [j <= nTasks]. *)
Lemma wake_range_lookup cfg (k : nat) ts (j : nat) :
  wake_range cfg 0 k ts !! j
  = if decide (j < k)%nat then wake_step cfg <$> ts !! j else ts !! j.
Proof.
  unfold wake_range. simpl. rewrite drop_0.
  case_decide as Hj.
  - destruct (decide (j < length ts)%nat) as [Hlt | Hge].
    + rewrite lookup_app_l by (rewrite length_fmap, length_take; lia).
      by rewrite list_lookup_fmap, lookup_take_lt.
    + rewrite (lookup_ge_None_2 ts j) by lia. simpl.
      apply lookup_ge_None_2.
      rewrite length_app, length_fmap, length_take, length_drop. lia.
  - destruct (decide (k <= length ts)%nat) as [Hle | Hgt].
    + rewrite lookup_app_r by (rewrite length_fmap, length_take; lia).
      rewrite length_fmap, length_take, lookup_drop. f_equal. lia.
    + rewrite (lookup_ge_None_2 ts j) by lia.
      apply lookup_ge_None_2.
      rewrite length_app, length_fmap, length_take, length_drop. lia.
Qed.

Lemma wake_step_not_waiting cfg t : state t <> S_WAITING -> wake_step cfg t = t.
Proof. intros Hst. unfold wake_step. by case_decide. Qed.

(** The loop body is the specified step for one task. *)
Lemma spec_tick_task_wake_step cfg t : spec_tick_task cfg t = wake_step cfg t.
Proof.
  unfold spec_tick_task, wake_step.
  destruct (state t) eqn:Hst; case_decide; try done; simpl; by case_decide.
Qed.


Lemma activate_loop_fields cfg fuel :
  forall i l l',
    activate_loop cfg fuel i l = Done l' ->
    nTasks l' = nTasks l /\ current_task l' = current_task l
    /\ next_task l' = next_task l /\ global_tick l' = global_tick l
    /\ length (tasks l') = length (tasks l).
Proof.
  induction fuel as [| fuel IH]; intros i l l' Hloop; [done |].
  simpl in Hloop. case_decide; [| by injection Hloop as <-].
  apply bind_Done in Hloop as (l1 & Hmod & Hloop).
  apply tcb_modify_Done in Hmod as (u & Hu & ->).
  apply IH in Hloop as (-> & -> & -> & -> & ->). simpl.
  by rewrite length_insert.
Qed.

(** ** Well-formed stores *)

Lemma wf_store_init cfg : wf_config cfg -> wf_store cfg (task_list_init cfg).
Proof.
  intros []. split; simpl.
  - by rewrite length_replicate.
  - lia.
  - apply Forall_replicate. split; simpl; [by rewrite length_replicate | lia].
Qed.

Lemma wf_store_put cfg l i t :
  wf_store cfg l -> wf_tcb cfg t -> wf_store cfg (tcb_put i t l).
Proof.
  intros [Hlen Hn Htcbs] Ht. split; simpl.
  - by rewrite length_insert.
  - done.
  - by apply Forall_insert.
Qed.

Lemma wf_store_modify cfg l l' i f :
  wf_store cfg l ->
  (forall t, wf_tcb cfg t -> wf_tcb cfg (f t)) ->
  tcb_modify i f l = Done l' ->
  wf_store cfg l'.
Proof.
  intros Hwf Hf Hmod. apply tcb_modify_Done in Hmod as (t & Ht & ->).
  apply wf_store_put; [done |]. apply Hf. by eapply wf_store_tcb_at_wf.
Qed.

Lemma wf_tcb_same cfg t t' :
  stack t' = stack t -> priority t' = priority t -> wf_tcb cfg t -> wf_tcb cfg t'.
Proof. intros Hs Hp [Hlen Hprio]. split; congruence. Qed.

Lemma wf_tcb_wake_step cfg t : wf_tcb cfg t -> wf_tcb cfg (wake_step cfg t).
Proof.
  intros Ht. unfold wake_step. repeat case_decide; try done;
    by apply (wf_tcb_same cfg t).
Qed.

Lemma wf_tcb_created cfg n body prio autostart t :
  wf_tcb cfg t -> wf_tcb cfg (created_tcb cfg n body prio autostart t).
Proof.
  intros [Hlen _]. split; simpl.
  - by rewrite !length_insert.
  - apply to_uint8_range.
Qed.

Lemma wf_store_fields cfg l l' :
  tasks l' = tasks l -> nTasks l' = nTasks l -> wf_store cfg l -> wf_store cfg l'.
Proof. intros Ht Hn [? ? ?]. split; congruence. Qed.

Lemma wf_store_create cfg body prio autostart m h m' :
  wf_config cfg -> wf_store cfg (task_list m) ->
  rtos_create_task cfg body prio autostart m = Done (h, m') ->
  wf_store cfg (task_list m').
Proof.
  intros Hcfg Hwf Hcreate. pose proof Hcfg as [? ? _ _ _ Hstack].
  pose proof Hwf as [Hlen Hn Htcbs]. unfold STACK_FRAME_SIZE in Hstack.
  destruct (decide (RTOS_MAX_NUMBER_OF_TASKS cfg <= nTasks (task_list m))) as [Hfull | Hroom].
  { rewrite create_task_full in Hcreate by done. by injection Hcreate as _ <-. }
  destruct (wf_store_tcb_at cfg (task_list m) (nTasks (task_list m)) Hwf)
    as (t & Ht & Hwt); [lia |].
  rewrite (create_task_room _ _ _ _ _ t) in Hcreate by (done || lia || apply Hwt).
  injection Hcreate as _ <-. simpl.
  pose proof (wf_store_put cfg (task_list m) (nTasks (task_list m)) _ Hwf
                (wf_tcb_created cfg (nTasks (task_list m)) body prio autostart t Hwt))
    as [Hlen' _ Htcbs'].
  split; simpl; [done | | done].
  rewrite to_uint8_small; lia.
Qed.

Lemma wf_store_context_switch cfg type m m' :
  wf_store cfg (task_list m) -> context_switch type m = Done m' ->
  wf_store cfg (task_list m').
Proof.
  intros Hwf Hcs. apply context_switch_Done in Hcs as (l1 & t & Hsave & Ht & ->).
  simpl. assert (wf_store cfg l1) as Hwf1.
  { destruct Hsave as [[_ ->] | (_ & t0 & v & Ht0 & _ & ->)]; [done |].
    apply wf_store_put; [done |].
    apply (wf_tcb_same cfg t0); [done.. |]. by eapply wf_store_tcb_at_wf. }
  apply wf_store_put.
  - by apply (wf_store_fields cfg l1).
  - apply (wf_tcb_same cfg t); [done.. |].
    eapply (wf_store_tcb_at_wf cfg l1); [done |]. exact Ht.
Qed.

Lemma wf_store_dispatcher cfg type m m' :
  wf_store cfg (task_list m) -> dispatcher cfg type m = Done m' ->
  wf_store cfg (task_list m').
Proof.
  intros Hwf Hd. apply dispatcher_Done in Hd as (r & _ & [[_ ->] | [_ Hcs]]); [done |].
  apply (wf_store_context_switch cfg) in Hcs; [done |]. simpl.
  by apply (wf_store_fields cfg (task_list m)).
Qed.

Lemma wf_store_activate_loop cfg fuel :
  forall i l l',
    wf_store cfg l -> activate_loop cfg fuel i l = Done l' -> wf_store cfg l'.
Proof.
  induction fuel as [| fuel IH]; intros i l l' Hwf Hloop; [done |].
  simpl in Hloop. case_decide; [| by injection Hloop as <-].
  apply bind_Done in Hloop as (l1 & Hmod & Hloop).
  apply (IH _ _ _ (wf_store_modify cfg _ _ _ _ Hwf (wf_tcb_wake_step cfg) Hmod) Hloop).
Qed.

(** Every kernel entry keeps the store well formed. *)
Lemma wf_store_step cfg e m m' :
  wf_config cfg -> wf_store cfg (task_list m) -> step cfg e m = Done m' ->
  wf_store cfg (task_list m').
Proof.
  intros Hcfg Hwf Hstep. destruct e; simpl in Hstep.
  - apply bind_Done in Hstep as ([h m1] & Hcreate & [= <-]).
    by eapply wf_store_create.
  - unfold rtos_start_scheduler in Hstep.
    apply bind_Done in Hstep as (m1 & Hidle & [= <-]). simpl.
    destruct (RTOS_ENABLE_IS_ALIVE cfg); [| by injection Hidle as <-].
    apply bind_Done in Hidle as ([h m2] & Hcreate & [= <-]).
    eapply wf_store_create; [done | | exact Hcreate]. simpl.
    by apply (wf_store_fields cfg (task_list m)).
  - unfold rtos_delay in Hstep.
    apply bind_Done in Hstep as (l1 & Hm1 & Hstep).
    apply bind_Done in Hstep as (l2 & Hm2 & Hstep).
    eapply wf_store_dispatcher; [| exact Hstep]. simpl.
    eapply wf_store_modify; [| | exact Hm2].
    + eapply wf_store_modify; [exact Hwf | | exact Hm1].
      intros t. by apply wf_tcb_same.
    + intros t. by apply wf_tcb_same.
  - unfold rtos_suspend_task in Hstep.
    apply bind_Done in Hstep as (l1 & Hm1 & Hstep).
    eapply wf_store_dispatcher; [| exact Hstep]. simpl.
    eapply wf_store_modify; [exact Hwf | | exact Hm1].
    intros t. by apply wf_tcb_same.
  - unfold rtos_activate_task in Hstep.
    apply bind_Done in Hstep as (l1 & Hm1 & Hstep).
    eapply wf_store_dispatcher; [| exact Hstep]. simpl.
    eapply wf_store_modify; [exact Hwf | | exact Hm1].
    intros t. by apply wf_tcb_same.
  - unfold SysTick_Handler in Hstep.
    apply bind_Done in Hstep as (l1 & Hwake & Hstep).
    apply bind_Done in Hstep as (m1 & Hd & [= <-]). simpl.
    eapply wf_store_dispatcher; [| exact Hd]. simpl.
    eapply wf_store_activate_loop; [| exact Hwake]. simpl.
    apply (wf_store_fields cfg (task_list m)); [| | done];
      by destruct (RTOS_ENABLE_IS_ALIVE cfg); [unfold refresh_is_alive; case_decide |].
  - unfold PendSV_Handler in Hstep. simpl in Hstep.
    destruct (tcb_at _ _); [| done]. by injection Hstep as <-.
  - by injection Hstep as <-.
Qed.

(** Every run keeps the store well formed. *)
Lemma wf_store_run cfg es :
  forall m m',
    wf_config cfg -> wf_store cfg (task_list m) -> run cfg es m = Done m' ->
    wf_store cfg (task_list m').
Proof.
  induction es as [| e es IH]; intros m m' Hcfg Hwf Hrun; simpl in Hrun.
  - by injection Hrun as <-.
  - apply bind_Done in Hrun as (m1 & Hstep & Hrun).
    eapply IH; [done | | exact Hrun]. by eapply wf_store_step.
Qed.

(** Every store reached from reset is well formed. *)
Lemma wf_store_reachable cfg es c p m :
  wf_config cfg -> run cfg es (machine_init cfg c p) = Done m ->
  wf_store cfg (task_list m).
Proof.
  intros Hcfg Hrun. eapply wf_store_run; [done | | exact Hrun].
  by apply wf_store_init.
Qed.

(** ** What the dispatcher selects *)

Lemma dispatcher_loop_created cfg l :
  wf_config cfg -> wf_store cfg l ->
  dispatcher_loop cfg loop_fuel l 0 INVALID_TASK (-1)
  = Done (scan cfg (created l) 0 INVALID_TASK (-1)).
Proof.
  intros [] [Hlen Hn _].
  rewrite (dispatcher_loop_scan cfg l (Z.to_nat (nTasks l))); unfold loop_fuel; try lia.
  by rewrite drop_0.
Qed.

Lemma created_lookup l (k : nat) t :
  created l !! k = Some t ->
  tcb_at l (Z.of_nat k) = Some t /\ Z.of_nat k < nTasks l.
Proof.
  unfold created. intros Hk. apply lookup_take_Some in Hk as [Hk Hlt].
  split; [| lia]. unfold tcb_at. case_decide; [| lia]. by rewrite Nat2Z.id.
Qed.

Lemma lookup_created l i t :
  0 <= i < nTasks l -> tcb_at l i = Some t -> created l !! Z.to_nat i = Some t.
Proof.
  intros Hi Ht. unfold created, tcb_at in *. case_decide; [| lia].
  rewrite lookup_take_lt by lia. done.
Qed.

(** While every runnable priority fits an [int8_t], the scan returns the
    first TCB of greatest priority among the runnable ones. *)
Lemma scan_max cfg ts :
  forall index next highest,
    Forall (fun t => 0 <= priority t <= 127) ts ->
    -1 <= highest <= 127 ->
    let r := scan cfg ts index next highest in
    (r = (next, highest)
     /\ forall (j : nat) u, ts !! j = Some u -> is_runnable u = true ->
          priority u <= highest)
    \/ exists (k : nat) t,
         ts !! k = Some t /\ is_runnable t = true
         /\ r = (to_handle cfg (index + Z.of_nat k), priority t)
         /\ highest < priority t
         /\ (forall (j : nat) u, ts !! j = Some u -> is_runnable u = true ->
               priority u <= priority t)
         /\ (forall (j : nat) u, (j < k)%nat -> ts !! j = Some u ->
               is_runnable u = true -> priority u < priority t).
Proof.
  induction ts as [| t0 ts IH]; intros index next highest Hprio Hhi; simpl.
  { left. split; [done |]. intros j u Hj. done. }
  apply Forall_cons_1 in Hprio as [Hp0 Hprio].
  destruct (bool_decide (highest < priority t0) && is_runnable t0) eqn:Htake.
  - apply andb_true_iff in Htake as [Hlt Hrun0]. apply bool_decide_eq_true in Hlt.
    rewrite to_int8_small by lia.
    destruct (IH (index + 1) (to_handle cfg index) (priority t0) Hprio ltac:(lia))
      as [[-> Hall] | (k & t & Hk & Hrun & -> & Hgt & Hall & Hfirst)]; right.
    + exists 0%nat, t0. repeat split; try done.
      * do 2 f_equal. lia.
      * intros [| j] u Hj Hu; simpl in Hj; [injection Hj as <-; lia | eauto].
      * intros j u Hj. lia.
    + exists (S k), t. repeat split; try done.
      * do 2 f_equal. lia.
      * lia.
      * intros [| j] u Hj Hu; simpl in Hj; [injection Hj as <-; lia | eauto].
      * intros [| j] u Hjk Hj Hu; simpl in Hj; [injection Hj as <-; lia |].
        apply (Hfirst j u); [lia | done..].
  - assert (is_runnable t0 = true -> priority t0 <= highest) as Hskip.
    { intros Hrun0. rewrite Hrun0, andb_true_r in Htake.
      apply bool_decide_eq_false in Htake. lia. }
    destruct (IH (index + 1) next highest Hprio Hhi)
      as [[-> Hall] | (k & t & Hk & Hrun & -> & Hgt & Hall & Hfirst)]; [left | right].
    + split; [done |].
      intros [| j] u Hj Hu; simpl in Hj; [injection Hj as <-; auto | eauto].
    + exists (S k), t. repeat split; try done.
      * do 2 f_equal. lia.
      * intros [| j] u Hj Hu; simpl in Hj; [injection Hj as <-; specialize (Hskip Hu); lia | eauto].
      * intros [| j] u Hjk Hj Hu; simpl in Hj;
          [injection Hj as <-; specialize (Hskip Hu); lia |].
        apply (Hfirst j u); [lia | done..].
Qed.

(** Priorities up to 127: the dispatcher's scan selects the lowest-indexed
    task of greatest priority among the created READY or RUNNING tasks. *)
Lemma dispatcher_selects_highest_below_128 cfg l :
  wf_config cfg -> wf_store cfg l ->
  Forall (fun t => priority t <= 127) (created l) ->
  (exists i t, 0 <= i < nTasks l /\ tcb_at l i = Some t /\ is_runnable t = true) ->
  exists sel t r,
    dispatcher_loop cfg loop_fuel l 0 INVALID_TASK (-1) = Done r
    /\ r.1 = sel /\ 0 <= sel < nTasks l
    /\ tcb_at l sel = Some t /\ is_runnable t = true
    /\ (forall j u, 0 <= j < nTasks l -> tcb_at l j = Some u ->
          is_runnable u = true -> priority u <= priority t)
    /\ (forall j u, 0 <= j < sel -> tcb_at l j = Some u ->
          is_runnable u = true -> priority u < priority t).
Proof.
  intros Hcfg Hwf Hprio (i & ti & Hi & Hti & Hruni).
  rewrite (dispatcher_loop_created cfg l Hcfg Hwf).
  assert (Forall (fun t => 0 <= priority t <= 127) (created l)) as Hprio'.
  { rewrite Forall_lookup in Hprio |- *. intros k t Hk.
    pose proof (Hprio k t Hk). apply created_lookup in Hk as [Hk _].
    apply (wf_store_tcb_at_wf cfg l _ _ Hwf) in Hk as [_ ?]. lia. }
  destruct (scan_max cfg (created l) 0 INVALID_TASK (-1) Hprio' ltac:(lia))
    as [[_ Hall] | (k & t & Hk & Hrun & Hr & _ & Hall & Hfirst)].
  { pose proof (Hall _ _ (lookup_created l i ti Hi Hti) Hruni).
    apply (wf_store_tcb_at_wf cfg l _ _ Hwf) in Hti as [_ ?]. lia. }
  pose proof (created_lookup l k t Hk) as [Ht Hlt].
  pose proof Hwf as [_ Hn _].
  exists (Z.of_nat k), t, (scan cfg (created l) 0 INVALID_TASK (-1)).
  split; [done |]. rewrite Hr. simpl.
  rewrite to_handle_small by (done || lia).
  repeat split; try done; try lia.
  - intros j u Hj Hu Hrunu. by apply (Hall _ _ (lookup_created l j u Hj Hu)).
  - intros j u Hj Hu Hrunu.
    apply (Hfirst (Z.to_nat j) u); [lia | apply lookup_created; [lia | done] | done].
Qed.

(** With a runnable task among the created ones, the dispatcher
    completes: the task it selects exists. *)
Lemma dispatcher_total cfg type m :
  let l := task_list m in
  wf_config cfg -> wf_store cfg l ->
  (exists i t, 0 <= i < nTasks l /\ tcb_at l i = Some t /\ is_runnable t = true) ->
  (first_run m = 0 -> is_Some (tcb_at l (current_task l))) ->
  exists m', dispatcher cfg type m = Done m'.
Proof.
  intros l Hcfg Hwf (i & ti & Hi & Hti & Hruni) Hcur.
  unfold dispatcher. fold l. rewrite (dispatcher_loop_created cfg l Hcfg Hwf), bind_Done_l.
  case_decide as Hne; [| eauto].
  destruct (scan_found cfg (created l) 0 INVALID_TASK (-1)) as (k & t & Hk & Hrun & Hsel).
  { exists (Z.to_nat i), ti. split; [by apply lookup_created |]. split; [done |].
    apply (wf_store_tcb_at_wf cfg l _ _ Hwf) in Hti as [_ ?]. lia. }
  pose proof (created_lookup l k t Hk) as [Ht Hlt].
  pose proof Hwf as [_ Hn _].
  rewrite Hsel, to_handle_small by (done || lia). simpl.
  destruct (context_switch_total type
              (set_task_list (set_next_task (Z.of_nat k) l) m)) as [m' Hcs];
    [done | by exists t | eauto].
Qed.

(** ** The deferred-switch handler *)

(** C9: [PendSV_Handler] is a frame on the TCB store. With the current task
    inside the array the handler completes; the whole [task_list] (every TCB,
    [nTasks], [current_task], [next_task], [global_tick]) and [first_run] are
    what they were; the handler clears the pending bit and hands the current
    task's saved stack pointer, read into [r0], to [r7], from which the return
    sequence of the handler reloads the CPU's stack pointer. *)
Theorem PendSV_Handler_frame (m : machine) :
  let l := task_list m in
  is_Some (tcb_at l (current_task l)) ->
  exists m',
    PendSV_Handler m = Done m'
    /\ task_list m' = l
    /\ first_run m' = first_run m
    /\ sp <$> tcb_at l (current_task l) = Some (reg_r7 (cpu m'))
    /\ reg_r0 (cpu m') = reg_r7 (cpu m')
    /\ ICSR_PENDSV (periph m') = false.
Proof.
  intros l [t Ht]. subst l. unfold PendSV_Handler.
  change (task_list (set_periph (set_ICSR_PENDSV false (periph m)) m))
    with (task_list m).
  rewrite Ht. eexists. split; [reflexivity |]. done.
Qed.

(** ** Activating a task *)

(** C10: [rtos_activate_task] writes READY without looking at the state the
    target had. For every handle inside the TCB array the call is the
    dispatcher run on the store in which the target is READY, whatever its
    state was (RUNNING and READY included); when the call completes the
    target is READY, unless the dispatcher switched to it, which marks it
    RUNNING. *)
Theorem activate_task_unconditional (cfg : rtos_config) (task : Z) (m : machine)
    (t : rtos_tcb_t) :
  let l := task_list m in
  tcb_at l task = Some t ->
  let l1 := tcb_put task (set_state S_READY t) l in
  state_at l1 task = Some S_READY
  /\ rtos_activate_task cfg task m
     = dispatcher cfg kFromNormalExec (set_task_list l1 m)
  /\ forall m', rtos_activate_task cfg task m = Done m' ->
       state_at (task_list m') task
       = Some (if decide (current_task (task_list m') = task
                          /\ current_task (task_list m') <> current_task l)
               then S_RUNNING else S_READY).
Proof.
  intros l Ht l1.
  assert (state_at l1 task = Some S_READY) as Hready
    by (by apply (state_at_put_eq _ _ t)).
  assert (rtos_activate_task cfg task m
          = dispatcher cfg kFromNormalExec (set_task_list l1 m)) as Hact.
  { unfold rtos_activate_task. fold l. by rewrite (tcb_modify_Some _ _ _ _ Ht). }
  split; [done |]. split; [done |].
  intros m' Hdone. rewrite Hact in Hdone.
  apply dispatcher_states in Hdone as [-> | (Hne & Hrun & Hother)]; simpl in *.
  - rewrite Hready. case_decide as Hc; [by destruct Hc | done].
  - case_decide as Hc.
    + destruct Hc as [<- _]. done.
    + rewrite Hother, Hready; [done |].
      intros ->. by apply Hc.
Qed.

(** ** The off-by-one of the wake-up pass *)

(** C8: the extra slot is inert. On a well-formed store whose slot at index
    [nTasks] is READY, as the unused zero-initialised slot is, the loop of
    [activate_waiting_tasks] over the indices [0 .. nTasks] completes with
    exactly the store that the specified pass over the created tasks
    [0 .. nTasks - 1] gives. *)
Theorem activate_waiting_tasks_extra_slot_inert (cfg : rtos_config)
    (l : task_list_t) :
  wf_config cfg ->
  wf_store cfg l ->
  state_at l (nTasks l) = Some S_READY ->
  activate_waiting_tasks cfg l = Done (spec_activate_waiting_tasks cfg l).
Proof.
  intros [] [Hlen Hn _] Hslot.
  rewrite activate_waiting_tasks_range by lia.
  unfold spec_activate_waiting_tasks.
  rewrite (list_fmap_ext (spec_tick_task cfg) (wake_step cfg))
    by (intros; apply spec_tick_task_wake_step).
  unfold created, wake_range. f_equal. f_equal.
  simpl. rewrite drop_0.
  unfold state_at, tcb_at in Hslot. case_decide; [| done].
  destruct (tasks l !! Z.to_nat (nTasks l)) as [t |] eqn:Ht; [| done].
  injection Hslot as Hst.
  replace (Z.to_nat (nTasks l + 1)) with (S (Z.to_nat (nTasks l))) by lia.
  rewrite (take_S_r _ _ _ Ht), fmap_app, <- app_assoc. simpl.
  rewrite wake_step_not_waiting by congruence.
  by rewrite (drop_S _ _ _ Ht).
Qed.

(** ** The tick handler and the RUNNING state *)

Lemma tcb_at_ext l1 l2 i : tasks l1 = tasks l2 -> tcb_at l1 i = tcb_at l2 i.
Proof. intros Heq. unfold tcb_at. by rewrite Heq. Qed.



(** ** Which API calls can fail *)

Lemma create_task_total cfg body prio autostart m :
  wf_config cfg -> wf_store cfg (task_list m) ->
  exists h m', rtos_create_task cfg body prio autostart m = Done (h, m').
Proof.
  intros Hcfg Hwf. pose proof Hcfg as [? ? _ _ _ Hstack].
  pose proof Hwf as [_ Hn _]. unfold STACK_FRAME_SIZE in Hstack.
  destruct (decide (RTOS_MAX_NUMBER_OF_TASKS cfg <= nTasks (task_list m))) as [Hfull | Hroom].
  { rewrite create_task_full by done. eauto. }
  destruct (wf_store_tcb_at cfg (task_list m) (nTasks (task_list m)) Hwf)
    as (t & Ht & [Hlen _]); [lia |].
  rewrite (create_task_room _ _ _ _ _ t) by (done || lia). eauto.
Qed.

Lemma tcb_at_put_is_Some l i j t t' :
  tcb_at l i = Some t -> is_Some (tcb_at l j) -> is_Some (tcb_at (tcb_put i t' l) j).
Proof.
  intros Hi Hj. destruct (decide (i = j)) as [<- | Hne].
  - rewrite (tcb_at_put_eq _ _ _ _ Hi). eauto.
  - rewrite tcb_at_put_ne; [done | | done]. apply tcb_at_Some in Hi. lia.
Qed.

Lemma start_scheduler_total cfg m :
  wf_config cfg -> wf_store cfg (task_list m) ->
  exists m', rtos_start_scheduler cfg m = Done m'.
Proof.
  intros Hcfg Hwf. unfold rtos_start_scheduler.
  destruct (RTOS_ENABLE_IS_ALIVE cfg); [| rewrite bind_Done_l; eauto].
  match goal with |- context [rtos_create_task cfg ?b ?p ?a ?m0] =>
    destruct (create_task_total cfg b p a m0) as (h & m1 & ->) end;
    [done | by apply (wf_store_fields cfg (task_list m)) |].
  rewrite !bind_Done_l. eauto.
Qed.

(** A call that blocks the caller completes when another created task is
    runnable. *)
Lemma block_current_total cfg m t f :
  let l := task_list m in
  wf_config cfg -> wf_store cfg l ->
  tcb_at l (current_task l) = Some t ->
  stack (f t) = stack t -> priority (f t) = priority t ->
  (exists i u, 0 <= i < nTasks l /\ i <> current_task l
               /\ tcb_at l i = Some u /\ is_runnable u = true) ->
  exists m', dispatcher cfg kFromNormalExec
               (set_task_list (tcb_put (current_task l) (f t) l) m) = Done m'.
Proof.
  intros l Hcfg Hwf Ht Hs Hp (i & u & Hi & Hne & Hu & Hrun).
  pose proof (tcb_at_Some _ _ _ Ht) as Hcur.
  apply dispatcher_total; simpl; [done | | |].
  - apply wf_store_put; [done |]. apply (wf_tcb_same cfg t); [done.. |].
    by eapply wf_store_tcb_at_wf.
  - exists i, u. rewrite tcb_at_put_ne by (lia || done). done.
  - intros _. rewrite (tcb_at_put_eq _ _ _ _ Ht). eauto.
Qed.

(** The outcome of [rtos_create_task]. On a well-formed store the call
    completes; it returns [INVALID_TASK] exactly when [nTasks] has reached
    [RTOS_MAX_NUMBER_OF_TASKS], and then changes nothing; otherwise it
    returns the next handle in sequence, which is not negative, and the new
    TCB has the given priority and entry function, local tick zero and
    state READY under [kAutoStart], SUSPENDED under [kStartSuspended]. *)
Lemma create_task_outcome cfg m body prio autostart :
  let l := task_list m in
  wf_config cfg ->
  wf_store cfg l ->
  0 <= prio < 256 ->
  exists h m',
    rtos_create_task cfg body prio autostart m = Done (h, m')
    /\ (h = INVALID_TASK <-> RTOS_MAX_NUMBER_OF_TASKS cfg <= nTasks l)
    /\ (h = INVALID_TASK -> m' = m)
    /\ (h <> INVALID_TASK ->
          h = nTasks l /\ 0 <= h
          /\ nTasks (task_list m') = nTasks l + 1
          /\ exists t,
               tcb_at (task_list m') h = Some t
               /\ priority t = prio /\ task_body t = body
               /\ local_tick t = 0
               /\ state t = match autostart with
                            | kAutoStart => S_READY
                            | kStartSuspended => S_SUSPENDED
                            end).
Proof.
  intros l Hcfg Hwf Hprio. subst l. pose proof Hcfg as [? ? _ _ _ Hstack].
  pose proof Hwf as [_ Hn _]. unfold STACK_FRAME_SIZE in Hstack.
  destruct (decide (RTOS_MAX_NUMBER_OF_TASKS cfg <= nTasks (task_list m)))
    as [Hfull | Hroom].
  { exists INVALID_TASK, m. rewrite create_task_full by done.
    repeat split; done. }
  destruct (wf_store_tcb_at cfg (task_list m) (nTasks (task_list m)) Hwf)
    as (t & Ht & [Hlen _]); [lia |].
  eexists _, _. split; [by apply (create_task_room _ _ _ _ _ t); (done || lia) |].
  rewrite to_handle_small by (done || lia). unfold INVALID_TASK.
  split; [lia |]. split; [lia |]. intros _.
  split; [done |]. split; [lia |]. simpl.
  split; [rewrite to_uint8_small; lia |].
  exists (created_tcb cfg (nTasks (task_list m)) body prio autostart t).
  split; [by apply (tcb_at_put_eq _ _ t) |]. simpl.
  rewrite to_uint8_small by lia. by destruct autostart.
Qed.

(** The calls of the current task that block it complete while another
    created task is runnable. *)
Lemma blocking_calls_complete cfg m :
  let l := task_list m in
  wf_config cfg ->
  wf_store cfg l ->
  is_Some (tcb_at l (current_task l)) ->
  (exists i u, 0 <= i < nTasks l /\ i <> current_task l
               /\ tcb_at l i = Some u /\ is_runnable u = true) ->
  (forall ticks, exists m', rtos_delay cfg ticks m = Done m')
  /\ (exists m', rtos_suspend_task cfg m = Done m').
Proof.
  intros l Hcfg Hwf [t Ht] Hother. subst l. split.
  - intros ticks. unfold rtos_delay.
    rewrite (tcb_modify_Some _ _ _ _ Ht), bind_Done_l.
    erewrite tcb_modify_Some by (by apply (tcb_at_put_eq _ _ t)).
    rewrite bind_Done_l, tcb_put_put.
    by apply (block_current_total cfg m t
                (fun t => set_local_tick (to_tick cfg ticks) (set_state S_WAITING t))).
  - unfold rtos_suspend_task.
    rewrite (tcb_modify_Some _ _ _ _ Ht), bind_Done_l.
    by apply (block_current_total cfg m t (set_state S_SUSPENDED)).
Qed.

(** [rtos_activate_task] completes on the handle of a created task. *)
Lemma activate_task_total cfg m task :
  let l := task_list m in
  wf_config cfg ->
  wf_store cfg l ->
  0 <= task < nTasks l ->
  (first_run m = 0 -> is_Some (tcb_at l (current_task l))) ->
  exists m', rtos_activate_task cfg task m = Done m'.
Proof.
  intros l Hcfg Hwf Htask Hcur. subst l.
  pose proof Hcfg as []. pose proof Hwf as [_ Hn _].
  destruct (wf_store_tcb_at cfg (task_list m) task Hwf) as (t & Ht & Hwt); [lia |].
  unfold rtos_activate_task.
  rewrite (tcb_modify_Some _ _ _ _ Ht), bind_Done_l.
  apply dispatcher_total; simpl; [done | | |].
  - apply wf_store_put; [done |]. by apply (wf_tcb_same cfg t).
  - exists task, (set_state S_READY t).
    by rewrite (tcb_at_put_eq _ _ _ _ Ht).
  - intros Hfirst. by apply (tcb_at_put_is_Some _ _ _ t); [| apply Hcur].
Qed.

(** ** The scenarios, evaluated *)

Lemma wf_config_two : wf_config cfg_two.
Proof. split; simpl; unfold STACK_FRAME_SIZE; lia. Qed.

Lemma wf_store_after_two es m :
  run cfg_two es reset_two = Done m -> wf_store cfg_two (task_list m).
Proof. apply wf_store_reachable, wf_config_two. Qed.

(** A task that waits with local tick zero is not woken by the pass: the
    counter wraps to the largest tick value. *)
Lemma wake_step_zero_tick cfg t :
  1 <= tick_bits cfg -> state t = S_WAITING -> local_tick t = 0 ->
  wake_step cfg t = set_local_tick (2 ^ tick_bits cfg - 1) t.
Proof.
  intros Hbits Hst Htick. unfold wake_step. case_decide; [| done].
  rewrite Htick. destruct (to_tick_minus_one cfg Hbits) as [Heq Hne].
  simpl. case_decide; [done |]. by rewrite Heq.
Qed.

Lemma activate_waiting_tasks_zero_tick cfg l i t :
  wf_config cfg -> wf_store cfg l ->
  0 <= i <= nTasks l -> tcb_at l i = Some t ->
  state t = S_WAITING -> local_tick t = 0 ->
  exists l', activate_waiting_tasks cfg l = Done l'
    /\ tcb_at l' i = Some (set_local_tick (2 ^ tick_bits cfg - 1) t).
Proof.
  intros Hcfg [Hlen Hn _] Hi Ht Hst Htick. pose proof Hcfg as [].
  rewrite activate_waiting_tasks_range by lia.
  eexists. split; [reflexivity |].
  unfold tcb_at in *. case_decide; [| lia]. simpl.
  rewrite wake_range_lookup. case_decide; [| lia].
  rewrite Ht. simpl. by rewrite wake_step_zero_tick.
Qed.

(** When the user tasks have used up [RTOS_MAX_NUMBER_OF_TASKS],
    [rtos_start_scheduler] registers no idle task. *)
Lemma start_scheduler_full cfg m :
  RTOS_MAX_NUMBER_OF_TASKS cfg <= nTasks (task_list m) ->
  exists m', rtos_start_scheduler cfg m = Done m'
    /\ tasks (task_list m') = tasks (task_list m)
    /\ nTasks (task_list m') = nTasks (task_list m).
Proof.
  intros Hfull. unfold rtos_start_scheduler.
  destruct (RTOS_ENABLE_IS_ALIVE cfg).
  - rewrite create_task_full by done. rewrite !bind_Done_l. eauto.
  - rewrite bind_Done_l. eauto.
Qed.

(** C1: [rtos_delay (0)] does not yield for one tick. The running task of
    priority 2 calls [rtos_delay (0)] and is WAITING with local tick zero;
    the next tick then decrements the zero counter, which wraps to
    [2 ^ 64 - 1], and the task is still WAITING instead of READY. *)
Theorem delay_zero_sleeps_through_next_tick :
  exists m1 m2,
    current_task (task_list user_running) = 0
    /\ state_at (task_list user_running) 0 = Some S_RUNNING
    /\ rtos_delay cfg_two 0 user_running = Done m1
    /\ state_at (task_list m1) 0 = Some S_WAITING
    /\ local_tick <$> tcb_at (task_list m1) 0 = Some 0
    /\ SysTick_Handler cfg_two m1 = Done m2
    /\ state_at (task_list m2) 0 = Some S_WAITING
    /\ local_tick <$> tcb_at (task_list m2) 0 = Some (2 ^ 64 - 1).
Proof.
  eexists _, _. split; [by vm_compute |]. split; [by vm_compute |].
  split; [vm_compute; reflexivity |]. split; [by vm_compute |].
  split; [by vm_compute |]. split; [vm_compute; reflexivity |].
  split; by vm_compute.
Qed.


(** C3: with room for two user tasks, three [rtos_create_task] calls return
    0, 1 and [INVALID_TASK]; the call that [rtos_start_scheduler] makes for
    the idle task meets the same test, [RTOS_MAX_NUMBER_OF_TASKS > nTasks],
    and returns [INVALID_TASK] too: after the start there are still two
    tasks, none with the entry [idle_task], and the extra slot of the array
    is as it was. *)
Theorem idle_task_rejected_when_full :
  exists m m',
    create_all cfg_two
      [(512, 3, kAutoStart); (768, 2, kAutoStart); (1024, 1, kAutoStart)] reset_two
    = Done ([0; 1; INVALID_TASK], m)
    /\ length (tasks (task_list m)) = 3%nat
    /\ rtos_create_task cfg_two (idle_task cfg_two) 0 kAutoStart m
       = Done (INVALID_TASK, m)
    /\ rtos_start_scheduler cfg_two m = Done m'
    /\ nTasks (task_list m') = 2
    /\ task_body <$> tasks (task_list m') = [512; 768; 0]
    /\ idle_task cfg_two = 64.
Proof.
  eexists _, _. split; [vm_compute; reflexivity |]. split; [by vm_compute |].
  split; [by vm_compute |]. split; [vm_compute; reflexivity |].
  split; [by vm_compute |]. split; by vm_compute.
Qed.

(** C4: a priority above 127 loses. Two READY tasks, priority 200 at index
    0 and priority 5 at index 1: the scan keeps [highest] in an [int8_t],
    where 200 becomes -56, so the task of priority 5 beats it; the first
    tick dispatches task 1 and leaves task 0 READY. *)
Theorem dispatcher_loses_priority_above_127 :
  exists m m',
    run cfg_two [EvCreate 512 200 kAutoStart; EvCreate 768 5 kAutoStart; EvStart]
      reset_two = Done m
    /\ (fun t => (priority t, state t)) <$> created (task_list m)
       = [(200, S_READY); (5, S_READY)]
    /\ to_int8 200 = -56
    /\ dispatcher_loop cfg_two loop_fuel (task_list m) 0 INVALID_TASK (-1)
       = Done (1, 5)
    /\ SysTick_Handler cfg_two m = Done m'
    /\ current_task (task_list m') = 1
    /\ state_at (task_list m') 1 = Some S_RUNNING
    /\ state_at (task_list m') 0 = Some S_READY.
Proof.
  eexists _, _. split; [vm_compute; reflexivity |]. split; [by vm_compute |].
  split; [by vm_compute |]. split; [by vm_compute |].
  split; [vm_compute; reflexivity |]. split; [by vm_compute |].
  split; by vm_compute.
Qed.

(** C5: a blocking call of the last runnable task fails. With room for two
    user tasks and both created, with handles 0 and 1, the start registers
    no idle task. After the first tick task 0 runs and suspends itself, and
    task 1 runs: it is the current task, RUNNING, and the only task that is
    READY or RUNNING. Its [rtos_suspend_task], and its [rtos_delay] for
    every tick count, leave the scan of the dispatcher without a candidate:
    [next_task] is [INVALID_TASK] and the switch indexes the TCB array at
    -1, outside the array. *)
Theorem blocking_call_of_last_runnable_fails :
  exists m0 m l,
    create_all cfg_two [(512, 2, kAutoStart); (768, 1, kAutoStart)] reset_two
    = Done ([0; 1], m0)
    /\ run cfg_two [EvStart; EvTick; EvPendSV; EvSuspend; EvPendSV] m0 = Done m
    /\ nTasks (task_list m) = 2
    /\ task_body <$> tasks (task_list m) = [512; 768; 0]
    /\ idle_task cfg_two = 64
    /\ current_task (task_list m) = 1
    /\ state <$> created (task_list m) = [S_SUSPENDED; S_RUNNING]
    /\ tcb_modify 1 (set_state S_SUSPENDED) (task_list m) = Done l
    /\ dispatcher_loop cfg_two loop_fuel l 0 INVALID_TASK (-1)
       = Done (INVALID_TASK, -1)
    /\ tcb_at l INVALID_TASK = None
    /\ rtos_suspend_task cfg_two m = Fault
    /\ forall ticks, rtos_delay cfg_two ticks m = Fault.
Proof.
  eexists _, _, _. split; [vm_compute; reflexivity |].
  split; [vm_compute; reflexivity |]. split; [by vm_compute |].
  split; [by vm_compute |]. split; [by vm_compute |]. split; [by vm_compute |].
  split; [by vm_compute |]. split; [vm_compute; reflexivity |].
  split; [by vm_compute |]. split; [by vm_compute |]. split; [by vm_compute |].
  intros ticks. vm_compute. reflexivity.
Qed.

(** ** The theorems at concrete inputs *)


Lemma context_switch_phase1_witness :
  let m := set_task_list (set_next_task 0 (task_list idle_running)) idle_running in
  first_run m = 0
  /\ exists m',
       context_switch kFromISR m = Done m'
       /\ sp <$> tcb_at (task_list m') 1 = Some (reg_sp (cpu m) + 9)
       /\ current_task (task_list m') = 0
       /\ state_at (task_list m') 0 = Some S_RUNNING
       /\ ICSR_PENDSV (periph m') = true.
Proof.
  intros m. split; [reflexivity |].
  destruct (context_switch_phase1 kFromISR m)
    as (m' & Hdone & _ & Hsave & Hcur & Hrun & _ & Hpend).
  - intros _. vm_compute. eexists. reflexivity.
  - vm_compute. eexists. reflexivity.
  - exists m'. split; [exact Hdone |]. split; [exact (Hsave eq_refl) |].
    split; [exact Hcur |]. split; [exact Hrun | exact Hpend].
Defined.

Lemma create_task_initial_frame_witness :
  exists t,
    tcb_at (task_list (after_two [EvCreate 512 2 kAutoStart])) 0 = Some t
    /\ sp t = 1003
    /\ stack_addr cfg_two 0 0 <= sp t < stack_addr cfg_two 0 12
    /\ stack t !! 10%nat = Some 512
    /\ stack t !! 11%nat = Some STACK_PSR_DEFAULT.
Proof.
  destruct (create_task_initial_frame cfg_two 512 2 kAutoStart reset_two
              (after_two [EvCreate 512 2 kAutoStart]) 0)
    as (t & Ht & _ & Hin & _ & Htop & Hpc & Hpsr).
  - exact wf_config_two.
  - apply (wf_store_after_two []). reflexivity.
  - split; [vm_compute; discriminate | reflexivity].
  - vm_compute. reflexivity.
  - vm_compute. discriminate.
  - exists t. split; [exact Ht |]. split; [| split; [exact Hin | split; [exact Hpc | exact Hpsr]]].
    change (sp t + 1 + 8 = 1000 + 100 * 0 + 12) in Htop. lia.
Defined.

Lemma activate_waiting_tasks_extra_slot_inert_witness :
  state_at (task_list idle_running) (nTasks (task_list idle_running)) = Some S_READY
  /\ activate_waiting_tasks cfg_two (task_list idle_running)
     = Done (spec_activate_waiting_tasks cfg_two (task_list idle_running)).
Proof.
  assert (state_at (task_list idle_running) (nTasks (task_list idle_running))
          = Some S_READY) as Hslot
    by (vm_compute; reflexivity).
  split; [exact Hslot |].
  apply (activate_waiting_tasks_extra_slot_inert cfg_two (task_list idle_running)).
  - exact wf_config_two.
  - apply (wf_store_after_two
             [EvCreate 512 2 kAutoStart; EvStart; EvTick; EvPendSV; EvDelay 1; EvPendSV]).
    vm_compute. reflexivity.
  - exact Hslot.
Defined.

Lemma PendSV_Handler_frame_witness :
  exists m',
    PendSV_Handler idle_preempted = Done m'
    /\ task_list m' = task_list idle_preempted
    /\ reg_r7 (cpu m') = 4991.
Proof.
  destruct (PendSV_Handler_frame idle_preempted)
    as (m' & Hdone & Hframe & _ & Hsp & _).
  - vm_compute. eexists. reflexivity.
  - exists m'. split; [exact Hdone |]. split; [exact Hframe |].
    vm_compute in Hsp. by injection Hsp.
Defined.

Lemma activate_task_unconditional_witness :
  state_at (task_list user_running) 0 = Some S_RUNNING
  /\ exists m',
       rtos_activate_task cfg_two 0 user_running = Done m'
       /\ current_task (task_list m') = 0
       /\ state_at (task_list m') 0 = Some S_READY.
Proof.
  split; [vm_compute; reflexivity |].
  destruct (tcb_at (task_list user_running) 0) as [t |] eqn:Ht;
    [| vm_compute in Ht; discriminate].
  destruct (activate_task_unconditional cfg_two 0 user_running t Ht)
    as (_ & _ & Hfinal).
  eexists. split; [vm_compute; reflexivity |]. split; [vm_compute; reflexivity |].
  rewrite Hfinal by (vm_compute; reflexivity).
  vm_compute. reflexivity.
Defined.

(** * Further properties of the kernel *)

(** ** What a switch and a dispatch change in a TCB *)

Lemma tcb_at_put l i j t0 t1 :
  tcb_at l i = Some t0 ->
  tcb_at (tcb_put i t1 l) j = if decide (i = j) then Some t1 else tcb_at l j.
Proof.
  intros Hi. case_decide as Hij.
  - subst j. by apply (tcb_at_put_eq _ _ t0).
  - apply tcb_at_put_ne; [| done]. apply tcb_at_Some in Hi. lia.
Qed.

Lemma same_static_refl t : same_static t t.
Proof. by repeat split. Qed.


(** A switch writes the saved stack pointer of the outgoing task (not on
    the first switch) and the state of the incoming one, and nothing else in
    any TCB. *)
Lemma context_switch_tcb type m m' i t :
  let l := task_list m in
  context_switch type m = Done m' ->
  tcb_at l i = Some t ->
  exists t',
    tcb_at (task_list m') i = Some t'
    /\ same_static t t'
    /\ local_tick t' = local_tick t
    /\ state t' = (if decide (i = next_task l) then S_RUNNING else state t)
    /\ sp t' = (if decide (i = current_task l /\ first_run m = 0)
                then saved_sp type m else sp t).
Proof.
  intros l Hcs Ht. subst l.
  apply context_switch_Done in Hcs as (l1 & tn & Hsave & Htn & ->). simpl.
  assert (exists t1, tcb_at l1 i = Some t1 /\ same_static t t1
            /\ local_tick t1 = local_tick t /\ state t1 = state t
            /\ sp t1 = (if decide (i = current_task (task_list m) /\ first_run m = 0)
                        then saved_sp type m else sp t)) as (t1 & Ht1 & Hs1 & Hl1 & Hst1 & Hsp1).
  { destruct Hsave as [[Hfirst ->] | (Hfirst & t0 & v & Ht0 & -> & ->)].
    - exists t. repeat split; try done. case_decide as Hc; [by destruct Hc | done].
    - rewrite (tcb_at_put _ _ i t0) by done.
      destruct (decide (current_task (task_list m) = i)) as [Hi | Hi].
      + subst i. assert (t0 = t) as -> by congruence.
        eexists. split; [done |]. repeat split; try done.
        simpl.
        destruct (decide (current_task (task_list m) = current_task (task_list m)
                          /\ first_run m = 0)) as [_ | Hc]; [done | naive_solver].
      + exists t. repeat split; try done.
        rewrite decide_False; [done |]. intros [? _]. congruence. }
  change (tcb_at (set_current_task (next_task (task_list m)) l1) (next_task (task_list m)))
    with (tcb_at l1 (next_task (task_list m))) in Htn.
  rewrite (tcb_at_put _ _ i tn) by done.
  change (tcb_at (set_current_task (next_task (task_list m)) l1) i) with (tcb_at l1 i).
  destruct (decide (next_task (task_list m) = i)) as [Hn | Hn].
  - subst i. assert (tn = t1) as -> by congruence.
    eexists. split; [done |]. rewrite decide_True by done.
    destruct Hs1 as (? & ? & ? & ?). repeat split; simpl; done.
  - exists t1. rewrite decide_False by congruence. done.
Qed.

Lemma context_switch_fields type m m' :
  context_switch type m = Done m' ->
  let l := task_list m in
  let l' := task_list m' in
  nTasks l' = nTasks l /\ global_tick l' = global_tick l
  /\ current_task l' = next_task l /\ next_task l' = next_task l
  /\ length (tasks l') = length (tasks l)
  /\ first_run m' = 0 /\ cpu m' = cpu m
  /\ alive_state m' = alive_state m /\ alive_count m' = alive_count m
  /\ periph m' = set_ICSR_PENDSV true (periph m)
  /\ 0 <= next_task l.
Proof.
  intros Hcs l l'. subst l l'.
  apply context_switch_Done in Hcs as (l1 & tn & Hsave & Htn & ->). simpl.
  apply tcb_at_Some in Htn as Hn. simpl in Hn.
  destruct Hsave as [[_ ->] | (_ & t0 & v & _ & _ & ->)]; simpl;
    rewrite ?length_insert; repeat split; done || lia.
Qed.

(** The dispatcher, when it switches, switches to a created task that was
    READY or RUNNING. *)
Lemma dispatcher_switch_runnable cfg type m m' :
  let l := task_list m in
  wf_config cfg -> wf_store cfg l ->
  dispatcher cfg type m = Done m' ->
  current_task (task_list m') <> current_task l ->
  exists t, 0 <= current_task (task_list m') < nTasks l
    /\ tcb_at l (current_task (task_list m')) = Some t
    /\ is_runnable t = true
    /\ context_switch type
         (set_task_list (set_next_task (current_task (task_list m')) l) m) = Done m'.
Proof.
  intros l Hcfg Hwf Hd Hne. subst l.
  apply dispatcher_Done in Hd as (r & Hloop & [[_ ->] | [Hr Hcs]]); [done |].
  rewrite (dispatcher_loop_created cfg _ Hcfg Hwf) in Hloop. injection Hloop as <-.
  pose proof (context_switch_fields _ _ _ Hcs) as (_ & _ & Hcur & _ & _ & _ & _ & _ & _ & _ & Hpos).
  simpl in Hcur, Hpos. rewrite Hcur.
  destruct (scan_next cfg (created (task_list m)) 0 INVALID_TASK (-1))
    as [Hinv | (k & t & Hk & Hrun & Hsel)].
  { rewrite Hinv in Hpos. unfold INVALID_TASK in Hpos. lia. }
  pose proof (created_lookup _ _ _ Hk) as [Ht Hlt].
  pose proof Hwf as [_ Hn _].
  rewrite to_handle_small in Hsel by (done || lia). simpl in Hsel.
  rewrite Hsel in *. exists t. repeat split; try done; lia.
Qed.

Lemma dispatcher_tcb cfg type m m' i t :
  let l := task_list m in
  let l' := task_list m' in
  dispatcher cfg type m = Done m' ->
  tcb_at l i = Some t ->
  exists t',
    tcb_at l' i = Some t'
    /\ same_static t t'
    /\ local_tick t' = local_tick t
    /\ state t' = (if decide (i = current_task l' /\ current_task l' <> current_task l)
                   then S_RUNNING else state t)
    /\ sp t' = (if decide (i = current_task l /\ current_task l' <> current_task l
                           /\ first_run m = 0)
                then saved_sp type m else sp t).
Proof.
  intros l l' Hd Ht. subst l l'.
  apply dispatcher_Done in Hd as (r & _ & [[_ ->] | [Hr Hcs]]).
  - exists t. split; [done |]. split; [apply same_static_refl |]. split; [done |].
    split; case_decide as Hc; try done; destruct Hc as (_ & Hc); try done;
      by destruct Hc.
  - pose proof (context_switch_fields _ _ _ Hcs) as (_ & _ & Hcur & _).
    simpl in Hcur.
    destruct (context_switch_tcb _ _ _ i t Hcs Ht) as (t' & Ht' & Hs & Hl & Hst & Hsp).
    simpl in Hst, Hsp. exists t'. rewrite Hcur.
    split; [done |]. split; [done |]. split; [done |]. split.
    + rewrite Hst. repeat case_decide; try done; exfalso; intuition congruence.
    + rewrite Hsp. unfold saved_sp. simpl.
      repeat case_decide; try done; exfalso; intuition congruence.
Qed.

Lemma dispatcher_fields cfg type m m' :
  dispatcher cfg type m = Done m' ->
  let l := task_list m in
  let l' := task_list m' in
  nTasks l' = nTasks l /\ global_tick l' = global_tick l
  /\ length (tasks l') = length (tasks l)
  /\ cpu m' = cpu m
  /\ alive_state m' = alive_state m /\ alive_count m' = alive_count m.
Proof.
  intros Hd l l'. subst l l'.
  apply dispatcher_Done in Hd as (r & _ & [[_ ->] | [Hr Hcs]]); [done |].
  apply context_switch_fields in Hcs. simpl in Hcs.
  destruct Hcs as (? & ? & _ & _ & ? & _ & ? & ? & ? & _). done.
Qed.

(** ** What a tick changes in a TCB *)

Lemma SysTick_Handler_entry cfg m :
  SysTick_Handler cfg m
  = (l ← activate_waiting_tasks cfg (task_list (tick_entry cfg m));
     m' ← dispatcher cfg kFromISR (set_task_list l (tick_entry cfg m));
     Done (reload_systick cfg m')).
Proof. reflexivity. Qed.

Lemma tick_entry_fields cfg m :
  tasks (task_list (tick_entry cfg m)) = tasks (task_list m)
  /\ nTasks (task_list (tick_entry cfg m)) = nTasks (task_list m)
  /\ current_task (task_list (tick_entry cfg m)) = current_task (task_list m)
  /\ global_tick (task_list (tick_entry cfg m))
     = to_tick cfg (global_tick (task_list m) + 1)
  /\ first_run (tick_entry cfg m) = first_run m
  /\ cpu (tick_entry cfg m) = cpu m.
Proof.
  unfold tick_entry. simpl. destruct (RTOS_ENABLE_IS_ALIVE cfg); [| done].
  unfold refresh_is_alive. by case_decide.
Qed.

Lemma same_static_wake_step cfg t : same_static t (wake_step cfg t).
Proof. unfold wake_step. repeat case_decide; by repeat split. Qed.

Lemma activate_waiting_tasks_tcb cfg l l' i t :
  wf_config cfg -> wf_store cfg l ->
  activate_waiting_tasks cfg l = Done l' ->
  tcb_at l i = Some t ->
  tcb_at l' i = Some (if decide (i <= nTasks l) then wake_step cfg t else t).
Proof.
  intros [] [Hlen Hn _] Hwake Ht.
  rewrite activate_waiting_tasks_range in Hwake by lia. injection Hwake as <-.
  unfold tcb_at in *. case_decide; [| done]. simpl.
  rewrite wake_range_lookup, Ht. simpl.
  repeat case_decide; done || lia.
Qed.


(** ** Blocked tasks *)




Lemma tcb_modify_fields i f l l' :
  tcb_modify i f l = Done l' ->
  nTasks l' = nTasks l /\ current_task l' = current_task l
  /\ next_task l' = next_task l /\ global_tick l' = global_tick l.
Proof. intros Hmod. by apply tcb_modify_Done in Hmod as (t & _ & ->). Qed.



Lemma PendSV_Handler_store m m' :
  PendSV_Handler m = Done m' ->
  task_list m' = task_list m /\ first_run m' = first_run m
  /\ alive_state m' = alive_state m /\ alive_count m' = alive_count m.
Proof.
  unfold PendSV_Handler.
  change (task_list (set_periph (set_ICSR_PENDSV false (periph m)) m))
    with (task_list m).
  destruct (tcb_at (task_list m) (current_task (task_list m))); [| done].
  by intros [= <-].
Qed.







Lemma tick_count_cons e es :
  tick_count (e :: es)
  = if decide (e = EvTick) then S (tick_count es) else tick_count es.
Proof. unfold tick_count. rewrite filter_cons. by case_decide. Qed.







(** ** The clock *)

Lemma tcb_store_Done i f l l' :
  tcb_store i f l = Done l' ->
  exists t t', tcb_at l i = Some t /\ f t = Done t' /\ l' = tcb_put i t' l.
Proof.
  unfold tcb_store. destruct (tcb_at l i) as [t |]; [| done].
  intros Hst. apply bind_Done in Hst as (t' & Hf & [= <-]). eauto.
Qed.

Lemma tcb_store_fields i f l l' :
  tcb_store i f l = Done l' ->
  nTasks l' = nTasks l /\ current_task l' = current_task l
  /\ next_task l' = next_task l /\ global_tick l' = global_tick l.
Proof. intros Hst. by apply tcb_store_Done in Hst as (t & t' & _ & _ & ->). Qed.

(** [rtos_create_task] writes one TCB and [nTasks], nothing else. *)
Lemma create_task_fields cfg body prio autostart m h m' :
  rtos_create_task cfg body prio autostart m = Done (h, m') ->
  current_task (task_list m') = current_task (task_list m)
  /\ next_task (task_list m') = next_task (task_list m)
  /\ global_tick (task_list m') = global_tick (task_list m)
  /\ first_run m' = first_run m /\ cpu m' = cpu m /\ periph m' = periph m
  /\ alive_state m' = alive_state m /\ alive_count m' = alive_count m.
Proof.
  unfold rtos_create_task. case_decide; [| by intros [= _ <-]].
  intros Hc.
  apply bind_Done in Hc as (l1 & H1 & Hc). apply tcb_modify_fields in H1.
  apply bind_Done in Hc as (l2 & H2 & Hc). apply tcb_modify_fields in H2.
  apply bind_Done in Hc as (l3 & H3 & Hc). apply tcb_modify_fields in H3.
  apply bind_Done in Hc as (l4 & H4 & Hc). apply tcb_modify_fields in H4.
  apply bind_Done in Hc as (l5 & H5 & Hc). apply tcb_modify_fields in H5.
  apply bind_Done in Hc as (l6 & H6 & Hc). apply tcb_store_fields in H6.
  apply bind_Done in Hc as (l7 & H7 & Hc). apply tcb_store_fields in H7.
  injection Hc as _ <-. simpl.
  destruct H1 as (_ & ? & ? & ?), H2 as (_ & ? & ? & ?), H3 as (_ & ? & ? & ?),
    H4 as (_ & ? & ? & ?), H5 as (_ & ? & ? & ?), H6 as (_ & ? & ? & ?),
    H7 as (_ & ? & ? & ?).
  repeat split; congruence.
Qed.

(** One entry into the kernel and the clock: a tick advances it by one,
    modulo the width of the tick type; [rtos_start_scheduler] resets it when
    the is-alive feature is compiled in; nothing else changes it. *)
Lemma clock_of_step (cfg : rtos_config) (e : event) (m m' : machine) :
  step cfg e m = Done m' ->
  rtos_get_clock m'
  = match e with
    | EvTick => (rtos_get_clock m + 1) mod 2 ^ tick_bits cfg
    | EvStart => if RTOS_ENABLE_IS_ALIVE cfg then 0 else rtos_get_clock m
    | _ => rtos_get_clock m
    end.
Proof.
  intros Hstep. unfold rtos_get_clock.
  destruct e as [body prio autostart | | k | | task | | | c']; simpl in Hstep.
  - apply bind_Done in Hstep as ([h m1] & Hcreate & [= <-]).
    by apply create_task_fields in Hcreate as (_ & _ & -> & _).
  - unfold rtos_start_scheduler in Hstep.
    apply bind_Done in Hstep as (m1 & Hidle & [= <-]).
    change (task_list (reload_systick cfg ?x)) with (task_list x).
    change (task_list (set_periph ?p m1)) with (task_list m1).
    destruct (RTOS_ENABLE_IS_ALIVE cfg); [| by injection Hidle as <-].
    apply bind_Done in Hidle as ([h m2] & Hcreate & [= <-]).
    by apply create_task_fields in Hcreate as (_ & _ & -> & _).
  - unfold rtos_delay in Hstep.
    apply bind_Done in Hstep as (l1 & H1 & Hstep). apply tcb_modify_fields in H1.
    apply bind_Done in Hstep as (l2 & H2 & Hd). apply tcb_modify_fields in H2.
    apply dispatcher_fields in Hd as (_ & -> & _). simpl.
    destruct H1 as (_ & _ & _ & ?), H2 as (_ & _ & _ & ?). congruence.
  - unfold rtos_suspend_task in Hstep.
    apply bind_Done in Hstep as (l1 & H1 & Hd). apply tcb_modify_fields in H1.
    apply dispatcher_fields in Hd as (_ & -> & _). simpl. by destruct H1 as (_ & _ & _ & ?).
  - unfold rtos_activate_task in Hstep.
    apply bind_Done in Hstep as (l1 & H1 & Hd). apply tcb_modify_fields in H1.
    apply dispatcher_fields in Hd as (_ & -> & _). simpl. by destruct H1 as (_ & _ & _ & ?).
  - rewrite SysTick_Handler_entry in Hstep.
    apply bind_Done in Hstep as (l1 & Hwake & Hstep).
    apply bind_Done in Hstep as (m1 & Hd & [= <-]).
    change (task_list (reload_systick cfg m1)) with (task_list m1).
    apply dispatcher_fields in Hd as (_ & -> & _). simpl.
    apply activate_loop_fields in Hwake as (_ & _ & _ & -> & _).
    by destruct (tick_entry_fields cfg m) as (_ & _ & _ & -> & _).
  - by apply PendSV_Handler_store in Hstep as (-> & _).
  - by injection Hstep as <-.
Qed.

(** X4: the clock counts the ticks. Over any run that does not restart the
    scheduler, [rtos_get_clock] ends at its initial value plus the number of
    tick interrupts of the run, modulo the width of the tick type: one per
    tick, and no API call or PendSV moves it. *)
Theorem clock_counts_ticks (cfg : rtos_config) (es : list event)
    (m m' : machine) :
  0 <= rtos_get_clock m < 2 ^ tick_bits cfg ->
  EvStart ∉ es ->
  run cfg es m = Done m' ->
  rtos_get_clock m'
  = (rtos_get_clock m + Z.of_nat (tick_count es)) mod 2 ^ tick_bits cfg.
Proof.
  revert m. induction es as [| e es IH]; intros m Hrange Hstart Hrun;
    simpl in Hrun.
  { injection Hrun as <-. unfold tick_count. simpl.
    rewrite Z.add_0_r, Z.mod_small; done. }
  apply bind_Done in Hrun as (m1 & Hstep & Hrun).
  apply not_elem_of_cons in Hstart as [Hne Hstart].
  pose proof (clock_of_step cfg e m m1 Hstep) as Hclock.
  rewrite tick_count_cons.
  destruct (decide (e = EvTick)) as [-> | Htick].
  - rewrite (IH m1); [| rewrite Hclock; apply Z.mod_pos_bound; lia | done | done].
    rewrite Hclock, Zplus_mod_idemp_l. f_equal. lia.
  - assert (rtos_get_clock m1 = rtos_get_clock m) as Heq by (by destruct e).
    rewrite (IH m1); [by rewrite Heq | by rewrite Heq | done | done].
Qed.

(** ** The dispatcher as an operation on the store *)

(** X5: the frame of the dispatcher. A completed dispatch leaves the task
    count and the clock alone and, in every TCB, the priority, the entry
    function, the reserved words, the stack contents and the wait counter;
    it changes a state only by marking the task it switches to RUNNING, and
    a saved stack pointer only for the task it switches away from. *)
Theorem dispatcher_frame (cfg : rtos_config) (type : task_switch_type_e)
    (m m' : machine) (i : Z) (t : rtos_tcb_t) :
  let l := task_list m in
  let l' := task_list m' in
  dispatcher cfg type m = Done m' ->
  tcb_at l i = Some t ->
  nTasks l' = nTasks l /\ global_tick l' = global_tick l
  /\ exists t',
       tcb_at l' i = Some t'
       /\ same_static t t'
       /\ local_tick t' = local_tick t
       /\ (i <> current_task l' -> state t' = state t)
       /\ (i <> current_task l -> sp t' = sp t)
       /\ (current_task l' = current_task l -> t' = t).
Proof.
  intros l l' Hd Ht. subst l l'.
  pose proof (dispatcher_fields _ _ _ _ Hd) as (Hn & Hg & _).
  split; [done |]. split; [done |].
  destruct (dispatcher_tcb cfg type m m' i t Hd Ht) as (t' & Ht' & Hs & Hl & Hst & Hsp).
  exists t'. split; [done |]. split; [done |]. split; [done |].
  split; [| split].
  - intros Hne. rewrite Hst. by rewrite decide_False by (by intros [? _]).
  - intros Hne. rewrite Hsp. by rewrite decide_False by (by intros [? _]).
  - intros Heq. rewrite decide_False in Hst by (by intros [_ ?]).
    rewrite decide_False in Hsp by (by intros (_ & ? & _)).
    destruct Hs as (? & ? & ? & ?). destruct t, t'. simpl in *. congruence.
Qed.

Lemma scan_ext cfg ts ts' :
  Forall2 (fun t t' => priority t' = priority t /\ is_runnable t' = is_runnable t)
    ts ts' ->
  forall index next highest,
    scan cfg ts' index next highest = scan cfg ts index next highest.
Proof.
  induction 1 as [| t t' ts ts' [Hp Hr] _ IH]; intros index next highest; simpl;
    [done |].
  rewrite Hp, Hr. by destruct (_ && _).
Qed.

(** X6: dispatching twice is dispatching once. After a completed dispatch,
    a second one, from either origin, finds the current task selected and
    returns without changing anything. *)
Theorem dispatcher_idempotent (cfg : rtos_config)
    (type type' : task_switch_type_e) (m m' : machine) :
  wf_config cfg ->
  wf_store cfg (task_list m) ->
  dispatcher cfg type m = Done m' ->
  dispatcher cfg type' m' = Done m'.
Proof.
  intros Hcfg Hwf Hd.
  pose proof (wf_store_dispatcher cfg type m m' Hwf Hd) as Hwf'.
  pose proof (dispatcher_fields _ _ _ _ Hd) as (Hn & _ & Hlen & _).
  assert (scan cfg (created (task_list m')) 0 INVALID_TASK (-1)
          = scan cfg (created (task_list m)) 0 INVALID_TASK (-1)) as Hscan.
  { apply scan_ext. apply Forall2_same_length_lookup_2.
    - unfold created. rewrite !length_take. lia.
    - intros k t t' Hk Hk'.
      apply created_lookup in Hk as [Ht _]. apply created_lookup in Hk' as [Ht' _].
      destruct (dispatcher_tcb cfg type m m' _ t Hd Ht) as (u & Hu & Hs & _ & Hst & _).
      assert (u = t') as -> by congruence.
      split; [apply Hs |].
      destruct (decide (Z.of_nat k = current_task (task_list m')
                        /\ current_task (task_list m') <> current_task (task_list m)))
        as [[Hc Hsw] | Hc].
      + destruct (dispatcher_switch_runnable cfg type m m' Hcfg Hwf Hd Hsw)
          as (tc & _ & Htc & Hrun & _).
        rewrite <- Hc in Htc. assert (tc = t) as -> by congruence.
        rewrite Hrun. unfold is_runnable. by rewrite Hst.
      + unfold is_runnable. by rewrite Hst. }
  assert ((scan cfg (created (task_list m)) 0 INVALID_TASK (-1)).1
          = current_task (task_list m')) as Hsel.
  { pose proof Hd as Hd'.
    apply dispatcher_Done in Hd' as (r & Hloop & [[Hr ->] | [Hr Hcs]]);
      rewrite (dispatcher_loop_created cfg _ Hcfg Hwf) in Hloop;
      injection Hloop as <-; [done |].
    apply context_switch_fields in Hcs as (_ & _ & Hcur & _). by rewrite Hcur. }
  unfold dispatcher.
  rewrite (dispatcher_loop_created cfg _ Hcfg Hwf'), bind_Done_l, Hscan, Hsel.
  by rewrite decide_False by (intros Hne; by apply Hne).
Qed.

Lemma scan_none cfg ts :
  Forall (fun t => is_runnable t = false) ts ->
  forall index next highest, scan cfg ts index next highest = (next, highest).
Proof.
  induction 1 as [| t ts Ht _ IH]; intros index next highest; simpl; [done |].
  by rewrite Ht, andb_false_r.
Qed.

(** X7: nothing runnable. When no created task is READY or RUNNING the scan
    selects [INVALID_TASK]: if that is already [current_task] (before the
    first switch) the dispatcher returns at once; otherwise it goes on to
    the switch, which indexes the TCB array at -1, outside the array. *)
Theorem dispatcher_without_runnable (cfg : rtos_config)
    (type : task_switch_type_e) (m : machine) :
  wf_config cfg ->
  wf_store cfg (task_list m) ->
  Forall (fun t => is_runnable t = false) (created (task_list m)) ->
  dispatcher_loop cfg loop_fuel (task_list m) 0 INVALID_TASK (-1)
  = Done (INVALID_TASK, -1)
  /\ dispatcher cfg type m
     = if decide (current_task (task_list m) = INVALID_TASK) then Done m else Fault.
Proof.
  intros Hcfg Hwf Hnone.
  assert (dispatcher_loop cfg loop_fuel (task_list m) 0 INVALID_TASK (-1)
          = Done (INVALID_TASK, -1)) as Hloop.
  { rewrite (dispatcher_loop_created cfg _ Hcfg Hwf). by rewrite scan_none. }
  split; [done |]. unfold dispatcher. rewrite Hloop, bind_Done_l. simpl.
  destruct (decide (current_task (task_list m) = INVALID_TASK)) as [Hcur | Hcur].
  - by rewrite decide_False by (intros Hne; by apply Hne).
  - rewrite decide_True by congruence.
    unfold context_switch. simpl.
    match goal with |- (?first ≫= _) = _ => destruct first as [l1 | |] eqn:Hfirst end;
      [| done |].
    2: { exfalso. repeat case_decide; try done;
           unfold tcb_modify in Hfirst; by destruct (tcb_at _ _). }
    rewrite bind_Done_l.
    assert (next_task l1 = INVALID_TASK) as Hnext.
    { case_decide; [| by injection Hfirst as <-].
      case_decide; by apply tcb_modify_fields in Hfirst as (_ & _ & -> & _). }
    simpl. rewrite Hnext. unfold tcb_modify, tcb_at, INVALID_TASK.
    by rewrite decide_False by lia.
Qed.

(** With no created task READY or RUNNING and a current task, the
    dispatcher selects [INVALID_TASK] and the switch leaves the array. *)
Lemma dispatcher_faults_without_runnable cfg type m :
  wf_config cfg ->
  wf_store cfg (task_list m) ->
  Forall (fun t => is_runnable t = false) (created (task_list m)) ->
  current_task (task_list m) <> INVALID_TASK ->
  dispatcher cfg type m = Fault.
Proof.
  intros Hcfg Hwf Hnone Hcur. unfold dispatcher.
  rewrite (dispatcher_loop_created cfg _ Hcfg Hwf), scan_none, bind_Done_l by done.
  change ((INVALID_TASK, -1).1) with INVALID_TASK.
  rewrite decide_True by congruence.
  unfold context_switch.
  change (task_list (set_task_list ?l m)) with l.
  change (first_run (set_task_list ?l m)) with (first_run m).
  change (cpu (set_task_list ?l m)) with (cpu m).
  match goal with |- (?first ≫= _) = _ => destruct first as [l1 | |] eqn:Hfirst end;
    [| done |].
  2: { exfalso. repeat case_decide; try done;
         unfold tcb_modify in Hfirst; by destruct (tcb_at _ _). }
  rewrite bind_Done_l.
  assert (next_task l1 = INVALID_TASK) as Hnext.
  { case_decide; [| by injection Hfirst as <-].
    case_decide; by apply tcb_modify_fields in Hfirst as (_ & _ & -> & _). }
  change (current_task (set_current_task ?c ?l)) with c.
  rewrite Hnext. unfold tcb_modify, tcb_at, INVALID_TASK.
  by rewrite decide_False by lia.
Qed.

(** The current task cannot block when it is the only created task that
    is READY or RUNNING: [rtos_suspend_task] and [rtos_delay] then take
    the dispatcher to [tasks[-1]]. *)
Lemma last_runnable_cannot_block cfg m :
  let l := task_list m in
  wf_config cfg ->
  wf_store cfg l ->
  is_Some (tcb_at l (current_task l)) ->
  (forall i u, 0 <= i < nTasks l -> i <> current_task l ->
               tcb_at l i = Some u -> is_runnable u = false) ->
  rtos_suspend_task cfg m = Fault
  /\ forall ticks, rtos_delay cfg ticks m = Fault.
Proof.
  intros l Hcfg Hwf [t Ht] Hothers. subst l.
  pose proof (tcb_at_Some _ _ _ Ht) as Hcur.
  assert (forall t', stack t' = stack t -> priority t' = priority t ->
            is_runnable t' = false ->
            dispatcher cfg kFromNormalExec
              (set_task_list
                 (tcb_put (current_task (task_list m)) t' (task_list m)) m)
            = Fault) as Hblock.
  { intros t' Hs Hp Hrun. apply dispatcher_faults_without_runnable; [done | | |].
    - apply wf_store_put; [done |]. apply (wf_tcb_same cfg t); [done.. |].
      by eapply wf_store_tcb_at_wf.
    - apply Forall_lookup_2. intros k u Hk.
      apply created_lookup in Hk as [Hu Hlt]. simpl in Hu, Hlt.
      destruct (decide (current_task (task_list m) = Z.of_nat k)) as [Heq | Hne].
      + rewrite <- Heq, (tcb_at_put_eq _ _ _ _ Ht) in Hu. by injection Hu as <-.
      + rewrite tcb_at_put_ne in Hu by (lia || done).
        apply (Hothers (Z.of_nat k)); [lia | done | done].
    - simpl. unfold INVALID_TASK. lia. }
  split.
  - unfold rtos_suspend_task.
    rewrite (tcb_modify_Some _ _ _ _ Ht), bind_Done_l. by apply Hblock.
  - intros ticks. unfold rtos_delay.
    rewrite (tcb_modify_Some _ _ _ _ Ht), bind_Done_l.
    erewrite tcb_modify_Some by (by apply (tcb_at_put_eq _ _ t)).
    rewrite bind_Done_l, tcb_put_put. by apply Hblock.
Qed.

(** ** Creating tasks, one after the other *)

Lemma create_task_handle cfg body prio autostart m :
  let n := nTasks (task_list m) in
  wf_config cfg -> wf_store cfg (task_list m) ->
  exists m', rtos_create_task cfg body prio autostart m
             = Done (if decide (n < RTOS_MAX_NUMBER_OF_TASKS cfg) then n
                     else INVALID_TASK, m')
    /\ nTasks (task_list m')
       = (if decide (n < RTOS_MAX_NUMBER_OF_TASKS cfg) then n + 1 else n)
    /\ wf_store cfg (task_list m').
Proof.
  intros n Hcfg Hwf. subst n.
  destruct (create_task_total cfg body prio autostart m Hcfg Hwf) as (h & m' & Hc).
  pose proof (wf_store_create cfg _ _ _ _ _ _ Hcfg Hwf Hc) as Hwf'.
  pose proof Hcfg as [? ? _ _ _ Hstack]. pose proof Hwf as [_ Hn _].
  unfold STACK_FRAME_SIZE in Hstack.
  exists m'. case_decide as Hroom.
  - destruct (wf_store_tcb_at cfg (task_list m) (nTasks (task_list m)) Hwf)
      as (t & Ht & [Hlen _]); [lia |].
    rewrite (create_task_room _ _ _ _ _ t) in Hc |- * by (done || lia).
    injection Hc as <- <-. rewrite to_handle_small by (done || lia).
    split; [done |]. split; [| done]. simpl. rewrite to_uint8_small; lia.
  - rewrite create_task_full in Hc |- * by lia. injection Hc as <- <-. done.
Qed.

(** X8: handles are handed out in order and run out for good. Any sequence
    of [rtos_create_task] calls on a well-formed store completes; the call
    number [j] returns [nTasks + j] while that is below
    [RTOS_MAX_NUMBER_OF_TASKS] and [INVALID_TASK] from then on; afterwards
    [nTasks] is the smaller of the maximum and the old count plus the number
    of calls. *)
Theorem create_all_handles (cfg : rtos_config)
    (reqs : list (Z * Z * rtos_autostart_e)) (m : machine) :
  let n := nTasks (task_list m) in
  wf_config cfg ->
  wf_store cfg (task_list m) ->
  exists hs m',
    create_all cfg reqs m = Done (hs, m')
    /\ length hs = length reqs
    /\ (forall (j : nat) h, hs !! j = Some h ->
          h = if decide (n + Z.of_nat j < RTOS_MAX_NUMBER_OF_TASKS cfg)
              then n + Z.of_nat j else INVALID_TASK)
    /\ nTasks (task_list m')
       = Z.min (RTOS_MAX_NUMBER_OF_TASKS cfg) (n + Z.of_nat (length reqs)).
Proof.
  intros n Hcfg. subst n. revert m.
  induction reqs as [| [[body prio] autostart] reqs IH]; intros m Hwf; simpl.
  { exists [], m. pose proof Hwf as [_ Hn _]. repeat split; [done | lia]. }
  destruct (create_task_handle cfg body prio autostart m Hcfg Hwf)
    as (m1 & -> & Hn1 & Hwf1).
  rewrite bind_Done_l. simpl.
  destruct (IH m1 Hwf1) as (hs & m' & -> & Hlen & Hhs & Hn').
  rewrite bind_Done_l. simpl. eexists _, _. split; [done |].
  split; [simpl; by rewrite Hlen |]. split.
  - intros [| j] h Hj; simpl in Hj.
    + injection Hj as <-. rewrite Z.add_0_r. done.
    + rewrite (Hhs j h Hj), Hn1. repeat case_decide; lia.
  - rewrite Hn', Hn1. case_decide; lia.
Qed.

(** X9: creating a task touches nothing else. A completed
    [rtos_create_task] leaves every TCB other than the slot at the old
    [nTasks] as it was, and with them [current_task], [next_task], the
    clock, the first-switch flag, the registers and the peripherals. *)
Theorem create_task_frame (cfg : rtos_config) (body prio : Z)
    (autostart : rtos_autostart_e) (m m' : machine) (h : Z) :
  let l := task_list m in
  let l' := task_list m' in
  wf_config cfg ->
  wf_store cfg l ->
  rtos_create_task cfg body prio autostart m = Done (h, m') ->
  (forall i, i <> nTasks l -> tcb_at l' i = tcb_at l i)
  /\ current_task l' = current_task l /\ next_task l' = next_task l
  /\ global_tick l' = global_tick l
  /\ first_run m' = first_run m /\ cpu m' = cpu m /\ periph m' = periph m.
Proof.
  intros l l' Hcfg Hwf Hc. subst l l'.
  pose proof (create_task_fields _ _ _ _ _ _ _ Hc) as (? & ? & ? & ? & ? & ? & _).
  split; [| done]. intros i Hi.
  pose proof Hcfg as [? ? _ _ _ Hstack]. pose proof Hwf as [_ Hn _].
  unfold STACK_FRAME_SIZE in Hstack.
  destruct (decide (RTOS_MAX_NUMBER_OF_TASKS cfg <= nTasks (task_list m)))
    as [Hfull | Hroom].
  { rewrite create_task_full in Hc by done. by injection Hc as _ <-. }
  destruct (wf_store_tcb_at cfg (task_list m) (nTasks (task_list m)) Hwf)
    as (u & Hu & [Hlen _]); [lia |].
  rewrite (create_task_room _ _ _ _ _ u) in Hc by (done || lia).
  injection Hc as _ <-. simpl.
  change (tcb_at (set_nTasks ?v ?l) i) with (tcb_at l i).
  rewrite tcb_at_put_ne; [done | lia | congruence].
Qed.

(** ** The reserved words *)

Lemma reserved_empty_put l i t :
  reserved_empty l -> reserved t = replicate 10 0 -> reserved_empty (tcb_put i t l).
Proof. intros Hl Ht. by apply Forall_insert. Qed.

Lemma reserved_empty_modify i f l l' :
  (forall t, reserved (f t) = reserved t) ->
  reserved_empty l -> tcb_modify i f l = Done l' -> reserved_empty l'.
Proof.
  intros Hf Hl Hmod. apply tcb_modify_Done in Hmod as (t & Ht & ->).
  apply reserved_empty_put; [done |]. rewrite Hf.
  unfold tcb_at in Ht. case_decide; [| done].
  unfold reserved_empty in Hl. rewrite Forall_lookup in Hl. by apply (Hl _ _ Ht).
Qed.

Lemma reserved_empty_store i j v l l' :
  reserved_empty l -> tcb_store i (stack_store j v) l = Done l' -> reserved_empty l'.
Proof.
  intros Hl Hst. apply tcb_store_Done in Hst as (t & t' & Ht & Hf & ->).
  apply reserved_empty_put; [done |].
  unfold stack_store in Hf. case_decide; [| done]. injection Hf as <-. simpl.
  unfold tcb_at in Ht. case_decide; [| done].
  unfold reserved_empty in Hl. rewrite Forall_lookup in Hl. by apply (Hl _ _ Ht).
Qed.

Lemma reserved_empty_create cfg body prio autostart m h m' :
  reserved_empty (task_list m) ->
  rtos_create_task cfg body prio autostart m = Done (h, m') ->
  reserved_empty (task_list m').
Proof.
  intros Hl. unfold rtos_create_task. case_decide; [| by intros [= _ <-]].
  intros Hc.
  apply bind_Done in Hc as (l1 & H1 & Hc).
  eapply reserved_empty_modify in H1; [| by intros | exact Hl].
  apply bind_Done in Hc as (l2 & H2 & Hc).
  eapply reserved_empty_modify in H2; [| by intros | exact H1].
  apply bind_Done in Hc as (l3 & H3 & Hc).
  eapply reserved_empty_modify in H3; [| by intros | exact H2].
  apply bind_Done in Hc as (l4 & H4 & Hc).
  eapply reserved_empty_modify in H4; [| by intros | exact H3].
  apply bind_Done in Hc as (l5 & H5 & Hc).
  eapply reserved_empty_modify in H5; [| by intros | exact H4].
  apply bind_Done in Hc as (l6 & H6 & Hc).
  eapply reserved_empty_store in H6; [| exact H5].
  apply bind_Done in Hc as (l7 & H7 & Hc).
  eapply reserved_empty_store in H7; [| exact H6].
  by injection Hc as _ <-.
Qed.

Lemma reserved_empty_dispatcher cfg type m m' :
  reserved_empty (task_list m) -> dispatcher cfg type m = Done m' ->
  reserved_empty (task_list m').
Proof.
  intros Hl Hd. unfold reserved_empty in *. rewrite Forall_lookup in Hl |- *.
  intros k t' Hk.
  pose proof (dispatcher_fields _ _ _ _ Hd) as (_ & _ & Hlen & _).
  destruct (lookup_lt_is_Some_2 (tasks (task_list m)) k) as [t Ht].
  { rewrite <- Hlen. by eapply lookup_lt_Some. }
  destruct (dispatcher_tcb cfg type m m' (Z.of_nat k) t Hd) as (u & Hu & Hs & _).
  { unfold tcb_at. rewrite decide_True by lia. by rewrite Nat2Z.id. }
  unfold tcb_at in Hu. rewrite decide_True, Nat2Z.id in Hu by lia.
  assert (u = t') as -> by congruence.
  destruct Hs as (_ & _ & -> & _). by apply (Hl _ _ Ht).
Qed.

Lemma reserved_empty_activate_loop cfg fuel :
  forall i l l',
    reserved_empty l -> activate_loop cfg fuel i l = Done l' -> reserved_empty l'.
Proof.
  induction fuel as [| fuel IH]; intros i l l' Hl Hloop; [done |].
  simpl in Hloop. case_decide; [| by injection Hloop as <-].
  apply bind_Done in Hloop as (l1 & Hmod & Hloop).
  apply (IH _ _ _ (reserved_empty_modify _ _ _ _
                     (fun t => proj1 (proj2 (proj2 (same_static_wake_step cfg t))))
                     Hl Hmod) Hloop).
Qed.

Lemma reserved_empty_step cfg e m m' :
  reserved_empty (task_list m) -> step cfg e m = Done m' ->
  reserved_empty (task_list m').
Proof.
  intros Hl Hstep.
  destruct e as [body prio autostart | | k | | task | | | c']; simpl in Hstep.
  - apply bind_Done in Hstep as ([h m1] & Hcreate & [= <-]).
    by eapply reserved_empty_create.
  - unfold rtos_start_scheduler in Hstep.
    apply bind_Done in Hstep as (m1 & Hidle & [= <-]).
    change (task_list (reload_systick cfg ?x)) with (task_list x).
    change (task_list (set_periph ?p m1)) with (task_list m1).
    destruct (RTOS_ENABLE_IS_ALIVE cfg); [| by injection Hidle as <-].
    apply bind_Done in Hidle as ([h m2] & Hcreate & [= <-]).
    eapply reserved_empty_create; [| exact Hcreate]. done.
  - unfold rtos_delay in Hstep.
    apply bind_Done in Hstep as (l1 & H1 & Hstep).
    eapply reserved_empty_modify in H1; [| by intros | exact Hl].
    apply bind_Done in Hstep as (l2 & H2 & Hd).
    eapply reserved_empty_modify in H2; [| by intros | exact H1].
    by eapply reserved_empty_dispatcher; [| exact Hd].
  - unfold rtos_suspend_task in Hstep.
    apply bind_Done in Hstep as (l1 & H1 & Hd).
    eapply reserved_empty_modify in H1; [| by intros | exact Hl].
    by eapply reserved_empty_dispatcher; [| exact Hd].
  - unfold rtos_activate_task in Hstep.
    apply bind_Done in Hstep as (l1 & H1 & Hd).
    eapply reserved_empty_modify in H1; [| by intros | exact Hl].
    by eapply reserved_empty_dispatcher; [| exact Hd].
  - rewrite SysTick_Handler_entry in Hstep.
    apply bind_Done in Hstep as (l1 & Hwake & Hstep).
    apply bind_Done in Hstep as (m1 & Hd & [= <-]).
    change (task_list (reload_systick cfg m1)) with (task_list m1).
    eapply reserved_empty_dispatcher; [| exact Hd]. simpl.
    eapply reserved_empty_activate_loop; [| exact Hwake].
    unfold reserved_empty.
    by destruct (tick_entry_fields cfg m) as (-> & _).
  - by apply PendSV_Handler_store in Hstep as (-> & _).
  - by injection Hstep as <-.
Qed.

(** X10: the reserved words stay empty. In every state reached from reset,
    whatever the calls and interrupts, the ten reserved words of every TCB
    are zero: no kernel code writes them. *)
Theorem reserved_stays_empty (cfg : rtos_config) (es : list event)
    (c : cpu_t) (p : periph_t) (m : machine) :
  run cfg es (machine_init cfg c p) = Done m ->
  reserved_empty (task_list m).
Proof.
  assert (reserved_empty (task_list (machine_init cfg c p))) as Hinit.
  { unfold reserved_empty. simpl. by apply Forall_replicate. }
  revert Hinit. generalize (machine_init cfg c p). clear c p.
  induction es as [| e es IH]; intros m0 Hl Hrun; simpl in Hrun.
  - by injection Hrun as <-.
  - apply bind_Done in Hrun as (m1 & Hstep & Hrun).
    eapply IH; [| exact Hrun]. by eapply reserved_empty_step.
Qed.

(** ** The two phases of a switch together *)

Lemma PendSV_Handler_frame_total m t :
  tcb_at (task_list m) (current_task (task_list m)) = Some t ->
  exists m', PendSV_Handler m = Done m' /\ task_list m' = task_list m
    /\ reg_r7 (cpu m') = sp t /\ ICSR_PENDSV (periph m') = false.
Proof.
  intros Ht. unfold PendSV_Handler.
  change (task_list (set_periph (set_ICSR_PENDSV false (periph m)) m))
    with (task_list m).
  rewrite Ht. eexists. split; [reflexivity |]. done.
Qed.

(** X11: phase 2 resumes the task that phase 1 selected. After a dispatch
    that switched, PendSV is pending; [PendSV_Handler] then completes,
    clears the pending bit, leaves the store alone and puts into [r7] the
    stack pointer that the incoming task had saved before the dispatch. *)
Theorem dispatch_then_PendSV (cfg : rtos_config) (type : task_switch_type_e)
    (m m1 : machine) :
  let l := task_list m in
  let l1 := task_list m1 in
  dispatcher cfg type m = Done m1 ->
  current_task l1 <> current_task l ->
  ICSR_PENDSV (periph m1) = true
  /\ exists m2 t,
       PendSV_Handler m1 = Done m2
       /\ tcb_at l (current_task l1) = Some t
       /\ reg_r7 (cpu m2) = sp t
       /\ task_list m2 = l1
       /\ ICSR_PENDSV (periph m2) = false.
Proof.
  intros l l1 Hd Hsw. subst l l1.
  pose proof Hd as Hd'.
  apply dispatcher_Done in Hd' as (r & _ & [[_ ->] | [Hr Hcs]]); [done |].
  pose proof (context_switch_fields _ _ _ Hcs) as (_ & _ & Hcur & _ & _ & _ & _ & _ & _ & Hper & _).
  simpl in Hcur. split; [by rewrite Hper |].
  pose proof (context_switch_Done _ _ _ Hcs) as (la & tn & Hsave & Htn & _).
  simpl in Hsave, Htn.
  assert (tcb_at (task_list m) r.1 = Some tn) as Ht.
  { destruct Hsave as [[_ ->] | (_ & t0 & v & Ht0 & _ & ->)]; [done |].
    rewrite tcb_at_put_ne in Htn; [done | | congruence].
    apply tcb_at_Some in Ht0. simpl in Ht0. lia. }
  destruct (dispatcher_tcb cfg type m m1 r.1 tn Hd Ht) as (t' & Ht' & _ & _ & _ & Hsp).
  rewrite decide_False in Hsp by (intros (? & _); congruence).
  destruct (PendSV_Handler_frame_total m1 t') as (m2 & Hp & Hl & Hr7 & Hpend);
    [by rewrite Hcur |].
  exists m2, tn. rewrite Hcur. repeat split; try done. congruence.
Qed.

(** ** The is-alive signal *)

Lemma refresh_is_alive_count cfg m :
  let N := RTOS_IS_ALIVE_PERIOD_IN_US cfg `quot` RTOS_TIC_PERIOD_IN_US cfg in
  1 <= N <= 2 ^ 32 -> 0 <= alive_count m < N ->
  let m' := refresh_is_alive cfg m in
  task_list m' = task_list m
  /\ if decide (alive_count m = N - 1)
     then alive_count m' = 0
          /\ alive_state m' = (if decide (alive_state m = 0) then 1 else 0)
          /\ alive_pin (periph m') = alive_state m
     else alive_count m' = alive_count m + 1
          /\ alive_state m' = alive_state m
          /\ alive_pin (periph m') = alive_pin (periph m).
Proof.
  intros N HN Hcount m'. subst N m'. unfold refresh_is_alive.
  change (alive_count (reload_systick cfg m)) with (alive_count m).
  change (alive_state (reload_systick cfg m)) with (alive_state m).
  set (N := RTOS_IS_ALIVE_PERIOD_IN_US cfg `quot` RTOS_TIC_PERIOD_IN_US cfg) in *.
  assert (to_uint32 (N - 1) = N - 1) as -> by (apply wrap_unsigned_small; lia).
  destruct (decide (alive_count m = N - 1)) as [Heq | Hne].
  - rewrite decide_True by done. done.
  - rewrite decide_False by congruence. simpl.
    assert (to_uint32 (alive_count m + 1) = alive_count m + 1) as ->
      by (apply wrap_unsigned_small; lia).
    done.
Qed.

Lemma refresh_is_alive_iter cfg m (k : nat) :
  let N := RTOS_IS_ALIVE_PERIOD_IN_US cfg `quot` RTOS_TIC_PERIOD_IN_US cfg in
  1 <= N <= 2 ^ 32 -> alive_count m = 0 -> Z.of_nat k < N ->
  let mk := Nat.iter k (refresh_is_alive cfg) m in
  alive_count mk = Z.of_nat k /\ alive_state mk = alive_state m
  /\ alive_pin (periph mk) = alive_pin (periph m).
Proof.
  intros N HN Hzero. subst N. induction k as [| k IH]; intros Hk; [done |].
  destruct IH as (Hc & Hs & Hp); [lia |]. simpl.
  destruct (refresh_is_alive_count cfg (Nat.iter k (refresh_is_alive cfg) m) HN)
    as (_ & Hstep); [lia |].
  rewrite decide_False in Hstep by lia. destruct Hstep as (-> & -> & ->).
  repeat split; try done. lia.
Qed.

(** X12: the period of the heartbeat. With [N] the number of ticks per
    is-alive period (at least 1, at most 2^32) and the counter at zero,
    the first [N - 1] calls of [refresh_is_alive] only count; call number
    [N] writes the current phase to the pin, flips the phase and resets the
    counter: the pin is written once every [N] calls. *)
Theorem heartbeat_period (cfg : rtos_config) (m : machine) :
  let N := RTOS_IS_ALIVE_PERIOD_IN_US cfg `quot` RTOS_TIC_PERIOD_IN_US cfg in
  1 <= N <= 2 ^ 32 ->
  alive_count m = 0 ->
  (forall k : nat, Z.of_nat k < N ->
     let mk := Nat.iter k (refresh_is_alive cfg) m in
     alive_count mk = Z.of_nat k /\ alive_state mk = alive_state m
     /\ alive_pin (periph mk) = alive_pin (periph m))
  /\ let mN := Nat.iter (Z.to_nat N) (refresh_is_alive cfg) m in
     alive_count mN = 0
     /\ alive_state mN = (if decide (alive_state m = 0) then 1 else 0)
     /\ alive_pin (periph mN) = alive_state m.
Proof.
  intros N HN Hzero. subst N.
  split; [intros k Hk; by apply refresh_is_alive_iter |].
  set (N := RTOS_IS_ALIVE_PERIOD_IN_US cfg `quot` RTOS_TIC_PERIOD_IN_US cfg) in *.
  replace (Z.to_nat N) with (S (Z.to_nat (N - 1))) by lia. simpl.
  destruct (refresh_is_alive_iter cfg m (Z.to_nat (N - 1)) HN Hzero)
    as (Hc & Hs & Hp); [fold N; lia |].
  destruct (refresh_is_alive_count cfg
              (Nat.iter (Z.to_nat (N - 1)) (refresh_is_alive cfg) m) HN)
    as (_ & Hstep); [fold N; lia |].
  fold N in Hstep. rewrite decide_True in Hstep by lia.
  destruct Hstep as (-> & -> & ->). by rewrite Hs.
Qed.

(** ** Starting the scheduler *)

(** X13: what [rtos_start_scheduler] sets up. It always completes and
    programs the tick timer (clock source, interrupt and enable bits; the
    reload value; the counter cleared) without touching the first-switch
    flag. With the is-alive feature compiled in it also clears the clock,
    sets [current_task] to [INVALID_TASK] and, if a slot below the maximum
    is free, registers [idle_task] there with priority 0, READY; with the
    maximum reached the TCB array is left as it was. Without the feature the
    whole store is left as it was: no idle task, and [current_task] is not
    invalidated. *)
Theorem start_scheduler_setup (cfg : rtos_config) (m : machine) :
  let l := task_list m in
  wf_config cfg ->
  wf_store cfg l ->
  exists m',
    rtos_start_scheduler cfg m = Done m'
    /\ SysTick_CTRL (periph m') = 7
    /\ SysTick_LOAD (periph m') = systick_count cfg
    /\ SysTick_VAL (periph m') = 0
    /\ first_run m' = first_run m
    /\ let l' := task_list m' in
       if RTOS_ENABLE_IS_ALIVE cfg then
         current_task l' = INVALID_TASK /\ global_tick l' = 0
         /\ if decide (nTasks l < RTOS_MAX_NUMBER_OF_TASKS cfg) then
              nTasks l' = nTasks l + 1
              /\ exists t, tcb_at l' (nTasks l) = Some t
                   /\ priority t = 0 /\ state t = S_READY
                   /\ task_body t = idle_task cfg /\ local_tick t = 0
            else tasks l' = tasks l /\ nTasks l' = nTasks l
       else l' = l.
Proof.
  intros l Hcfg Hwf. subst l. unfold rtos_start_scheduler.
  pose proof Hcfg as [? ? _ _ _ Hstack]. pose proof Hwf as [_ Hn _].
  unfold STACK_FRAME_SIZE in Hstack.
  destruct (RTOS_ENABLE_IS_ALIVE cfg).
  - set (m0 := set_task_list _ _).
    assert (wf_store cfg (task_list m0)) as Hwf0
      by (by apply (wf_store_fields cfg (task_list m))).
    destruct (decide (nTasks (task_list m) < RTOS_MAX_NUMBER_OF_TASKS cfg))
      as [Hroom | Hfull].
    + destruct (wf_store_tcb_at cfg (task_list m0) (nTasks (task_list m0)) Hwf0)
        as (t & Ht & [Hlen _]); [simpl; lia |].
      rewrite (create_task_room _ _ _ _ _ t) by (done || simpl; lia).
      rewrite !bind_Done_l. eexists. split; [reflexivity |]. simpl.
      repeat split; try done.
      * rewrite to_uint8_small; lia.
      * eexists. split; [by apply (tcb_at_put_eq _ _ t) |]. done.
    + rewrite create_task_full by (simpl; lia).
      rewrite !bind_Done_l. eexists. split; [reflexivity |]. done.
  - rewrite bind_Done_l. eexists. split; [reflexivity |]. done.
Qed.

(** ** Priorities *)

(** X14: fixed priorities up to 127. While no created task has a priority
    above 127 and some created task is READY or RUNNING, the dispatcher
    completes and the task that is current afterwards is, among the created
    READY or RUNNING tasks, one of greatest priority and the lowest-indexed
    such; when that task was current already the machine is unchanged. *)
Theorem dispatcher_runs_first_highest (cfg : rtos_config)
    (type : task_switch_type_e) (m : machine) :
  let l := task_list m in
  wf_config cfg ->
  wf_store cfg l ->
  Forall (fun t => priority t <= 127) (created l) ->
  (exists i t, 0 <= i < nTasks l /\ tcb_at l i = Some t /\ is_runnable t = true) ->
  (first_run m = 0 -> is_Some (tcb_at l (current_task l))) ->
  exists m' t,
    dispatcher cfg type m = Done m'
    /\ 0 <= current_task (task_list m') < nTasks l
    /\ tcb_at l (current_task (task_list m')) = Some t
    /\ is_runnable t = true
    /\ (forall j u, 0 <= j < nTasks l -> tcb_at l j = Some u ->
          is_runnable u = true -> priority u <= priority t)
    /\ (forall j u, 0 <= j < current_task (task_list m') -> tcb_at l j = Some u ->
          is_runnable u = true -> priority u < priority t)
    /\ (current_task (task_list m') = current_task l -> m' = m).
Proof.
  intros l Hcfg Hwf Hprio Hex Hcur. subst l.
  destruct (dispatcher_selects_highest_below_128 cfg _ Hcfg Hwf Hprio Hex)
    as (sel & t & r & Hloop & Hr & Hsel & Ht & Hrun & Hmax & Hfirst).
  unfold dispatcher. rewrite Hloop, bind_Done_l, Hr.
  destruct (decide (sel = current_task (task_list m))) as [Heq | Hne].
  - rewrite decide_False by (intros Hn; by apply Hn).
    exists m, t. rewrite <- Heq. repeat split; try done; lia.
  - rewrite decide_True by done.
    destruct (context_switch_total type
                (set_task_list (set_next_task sel (task_list m)) m))
      as (m' & Hcs); [done | by exists t |].
    pose proof (context_switch_fields _ _ _ Hcs) as (_ & _ & Hc & _).
    simpl in Hc. exists m', t. rewrite Hcs, Hc.
    repeat split; try done; lia.
Qed.

Lemma to_int8_range z : -128 <= to_int8 z < 128.
Proof.
  unfold to_int8, wrap_signed.
  pose proof (Z.mod_pos_bound (z + 2 ^ (8 - 1)) (2 ^ 8) ltac:(lia)) as H.
  change (2 ^ 8) with 256 in *. change (2 ^ (8 - 1)) with 128 in *. lia.
Qed.

Lemma to_int8_high z : 128 <= z < 256 -> to_int8 z = z - 256.
Proof.
  intros Hz. unfold to_int8, wrap_signed.
  change (2 ^ 8) with 256. change (2 ^ (8 - 1)) with 128.
  replace (z + 128) with (z - 128 + 1 * 256) by lia.
  rewrite Z_mod_plus_full, Z.mod_small; lia.
Qed.

Lemma scan_app cfg ts1 ts2 :
  forall index next highest,
    scan cfg (ts1 ++ ts2) index next highest
    = scan cfg ts2 (index + Z.of_nat (length ts1))
        (scan cfg ts1 index next highest).1 (scan cfg ts1 index next highest).2.
Proof.
  induction ts1 as [| t ts1 IH]; intros index next highest.
  { simpl. by rewrite Z.add_0_r. }
  cbn [app scan length]. rewrite Nat2Z.inj_succ.
  destruct (_ && _); rewrite IH; f_equal; lia.
Qed.

Lemma scan_highest_le cfg ts :
  forall index next highest,
    highest <= 127 -> (scan cfg ts index next highest).2 <= 127.
Proof.
  induction ts as [| t ts IH]; intros index next highest Hhi; simpl; [done |].
  destruct (_ && _); apply IH; [| done].
  pose proof (to_int8_range (priority t)). lia.
Qed.

(** X15: a priority above 127 is starved. If a created READY or RUNNING task
    has a priority of 128 or more and any READY or RUNNING task was created
    after it, the scan of the dispatcher selects a task created after it:
    the dispatcher never switches to the task of high priority. *)
Theorem priority_above_127_starved (cfg : rtos_config)
    (type : task_switch_type_e) (m : machine) (i j : Z) (ti tj : rtos_tcb_t) :
  let l := task_list m in
  wf_config cfg ->
  wf_store cfg l ->
  tcb_at l i = Some ti -> is_runnable ti = true -> 128 <= priority ti ->
  tcb_at l j = Some tj -> is_runnable tj = true ->
  i < j < nTasks l ->
  (exists r, dispatcher_loop cfg loop_fuel l 0 INVALID_TASK (-1) = Done r
             /\ i < r.1 < nTasks l)
  /\ forall m', dispatcher cfg type m = Done m' ->
       current_task (task_list m') = current_task l
       \/ i < current_task (task_list m') < nTasks l.
Proof.
  intros l Hcfg Hwf Hti Hruni Hhigh Htj Hrunj Hij. subst l.
  pose proof Hwf as [_ Hn _].
  apply tcb_at_Some in Hti as Hi.
  pose proof (wf_store_tcb_at_wf cfg _ _ _ Hwf Hti) as [_ Hpi].
  pose proof (wf_store_tcb_at_wf cfg _ _ _ Hwf Htj) as [_ Hpj].
  assert (exists r, dispatcher_loop cfg loop_fuel (task_list m) 0 INVALID_TASK (-1)
                    = Done r /\ i < r.1 < nTasks (task_list m)) as (r & Hloop & Hr).
  { rewrite (dispatcher_loop_created cfg _ Hcfg Hwf). eexists. split; [done |].
    pose proof (lookup_created (task_list m) i ti ltac:(lia) Hti) as Hci.
    pose proof (lookup_created (task_list m) j tj ltac:(lia) Htj) as Hcj.
    rewrite <- (take_drop_middle _ _ _ Hci) in Hcj |- *.
    assert (length (take (Z.to_nat i) (created (task_list m))) = Z.to_nat i) as Hlen.
    { apply length_take_le. apply lookup_lt_Some in Hci. lia. }
    rewrite scan_app, Hlen. cbn [scan].
    pose proof (scan_highest_le cfg (take (Z.to_nat i) (created (task_list m)))
                  0 INVALID_TASK (-1) ltac:(lia)) as Hle.
    rewrite Hruni, andb_true_r, bool_decide_eq_true_2 by lia.
    rewrite to_int8_high by lia.
    rewrite lookup_app_r in Hcj by (rewrite Hlen; lia).
    rewrite Hlen in Hcj.
    replace (Z.to_nat j - Z.to_nat i)%nat with (S (Z.to_nat (j - i - 1))) in Hcj by lia.
    rewrite lookup_cons in Hcj.
    destruct (scan_found cfg (drop (S (Z.to_nat i)) (created (task_list m)))
                (0 + Z.of_nat (Z.to_nat i) + 1)
                (to_handle cfg (0 + Z.of_nat (Z.to_nat i))) (priority ti - 256))
      as (k & t & Hk & _ & ->).
    { exists (Z.to_nat (j - i - 1)), tj. repeat split; try done. lia. }
    rewrite lookup_drop in Hk. apply created_lookup in Hk as [_ Hk].
    rewrite to_handle_small; [lia | exact Hcfg | lia]. }
  split; [by exists r |].
  intros m' Hd. apply dispatcher_Done in Hd as (r' & Hloop' & [[_ ->] | [_ Hcs]]);
    [by left | right].
  assert (r' = r) as -> by congruence.
  apply context_switch_fields in Hcs as (_ & _ & Hcur & _). simpl in Hcur.
  by rewrite Hcur.
Qed.

(** X16: activating a task of higher priority preempts the caller. With
    priorities up to 127, activating a created task other than the caller
    whose priority is above that of every other READY or RUNNING task
    completes with that task current and RUNNING and PendSV pending; after
    the first switch the caller's saved stack pointer is the observed SP
    minus 9 words, and the caller keeps the state it had. *)
Theorem activate_preempts (cfg : rtos_config) (task : Z) (m : machine)
    (t : rtos_tcb_t) :
  let l := task_list m in
  wf_config cfg ->
  wf_store cfg l ->
  0 <= task < nTasks l ->
  task <> current_task l ->
  tcb_at l task = Some t ->
  Forall (fun u => priority u <= 127) (created l) ->
  (forall j u, 0 <= j < nTasks l -> j <> task -> tcb_at l j = Some u ->
     is_runnable u = true -> priority u < priority t) ->
  (first_run m = 0 -> is_Some (tcb_at l (current_task l))) ->
  exists m',
    rtos_activate_task cfg task m = Done m'
    /\ current_task (task_list m') = task
    /\ state_at (task_list m') task = Some S_RUNNING
    /\ ICSR_PENDSV (periph m') = true
    /\ state_at (task_list m') (current_task l) = state_at l (current_task l)
    /\ (first_run m = 0 ->
        sp <$> tcb_at (task_list m') (current_task l) = Some (reg_sp (cpu m) - 9)).
Proof.
  intros l Hcfg Hwf Htask Hne Ht Hprio Habove Hcur. subst l.
  unfold rtos_activate_task. rewrite (tcb_modify_Some _ _ _ _ Ht), bind_Done_l.
  set (l1 := tcb_put task (set_state S_READY t) (task_list m)).
  assert (wf_store cfg l1) as Hwf1
    by (apply wf_store_put; [done | by apply (wf_tcb_same cfg t);
          [| | eapply wf_store_tcb_at_wf]]).
  assert (forall j u, tcb_at l1 j = Some u ->
            if decide (j = task) then u = set_state S_READY t
            else tcb_at (task_list m) j = Some u) as Hl1.
  { intros j u Hu. unfold l1 in Hu. rewrite (tcb_at_put _ _ j t) in Hu by done.
    destruct (decide (task = j)) as [<- | Hj].
    - rewrite decide_True by done. congruence.
    - rewrite decide_False by congruence. done. }
  assert (Forall (fun u => priority u <= 127) (created l1)) as Hprio1.
  { rewrite Forall_lookup in Hprio |- *. intros k u Hk.
    apply created_lookup in Hk as [Hu Hlt]. specialize (Hl1 _ _ Hu).
    destruct (decide (Z.of_nat k = task)) as [Hk | Hk].
    - subst u. simpl. apply (Hprio (Z.to_nat task) t). by apply lookup_created.
    - apply (Hprio k u). rewrite <- (Nat2Z.id k). apply lookup_created; [| done].
      unfold l1 in Hlt. simpl in Hlt. lia. }
  destruct (dispatcher_selects_highest_below_128 cfg l1 Hcfg Hwf1 Hprio1)
    as (sel & ts & r & Hloop & Hr & Hsel & Hts & Hruns & Hmax & _).
  { exists task, (set_state S_READY t). split; [done |].
    split; [by apply (tcb_at_put_eq _ _ t) | done]. }
  assert (sel = task) as ->.
  { destruct (decide (sel = task)) as [| Hd]; [done | exfalso].
    pose proof (Hl1 _ _ Hts) as Hts'. rewrite decide_False in Hts' by done.
    pose proof (Habove sel ts Hsel Hd Hts' Hruns) as Hlt.
    pose proof (Hmax task (set_state S_READY t) Htask
                  (tcb_at_put_eq _ _ t _ Ht) eq_refl) as Hge.
    simpl in Hge. lia. }
  unfold dispatcher. change (task_list (set_task_list l1 m)) with l1.
  rewrite Hloop, bind_Done_l, Hr.
  change (current_task l1) with (current_task (task_list m)).
  rewrite decide_True by done.
  set (m1 := set_task_list (set_next_task task l1) (set_task_list l1 m)).
  destruct (context_switch_total kFromNormalExec m1) as (m' & Hcs).
  { intros Hfirst. simpl. by apply (tcb_at_put_is_Some _ _ _ t); [| apply Hcur]. }
  { by exists ts. }
  pose proof (context_switch_fields _ _ _ Hcs)
    as (_ & _ & Hc & _ & _ & _ & _ & _ & _ & Hper & _).
  simpl in Hc. exists m'. split; [done |]. split; [done |].
  destruct (context_switch_tcb _ _ _ task ts Hcs Hts) as (t' & Ht' & _ & _ & Hst' & _).
  simpl in Hst'. rewrite decide_True in Hst' by done.
  split; [unfold state_at; rewrite Ht'; simpl; by rewrite Hst' |].
  split; [by rewrite Hper |].
  destruct (tcb_at (task_list m) (current_task (task_list m))) as [tc |] eqn:Htc.
  - assert (tcb_at (task_list m1) (current_task (task_list m)) = Some tc) as Htc1.
    { change (tcb_at l1 (current_task (task_list m)) = Some tc). unfold l1.
      rewrite tcb_at_put_ne; [done | lia | done]. }
    destruct (context_switch_tcb _ _ _ _ tc Hcs Htc1)
      as (tc' & Htc' & _ & _ & Hstc & Hspc).
    simpl in Hstc, Hspc. rewrite decide_False in Hstc by congruence.
    unfold state_at. rewrite Htc', Htc. simpl. split; [by rewrite Hstc |].
    intros Hfirst. rewrite Hspc, decide_True by done. done.
  - split; [| intros Hfirst; by destruct (Hcur Hfirst)].
    unfold state_at. rewrite Htc.
    destruct (tcb_at (task_list m') (current_task (task_list m))) as [tc' |] eqn:Htc';
      [| done].
    exfalso. apply tcb_at_Some in Htc'.
    pose proof (context_switch_fields _ _ _ Hcs) as (_ & _ & _ & _ & Hlen & _).
    simpl in Hlen. rewrite length_insert in Hlen.
    destruct (tcb_at_is_Some (task_list m) (current_task (task_list m)))
      as [? ?]; [lia | congruence].
Qed.

(** ** The wake-up pass, index by index *)

(** X17: which TCBs the wake-up pass steps. On a well-formed store
    [activate_waiting_tasks] completes, leaves the registry fields alone and
    applies the wake-up step (decrement the counter of a WAITING task, make
    it READY at zero) exactly once to each TCB of index 0 to [nTasks], the
    slot just above the created tasks included, and to no other. *)
Theorem wake_up_pass_range (cfg : rtos_config) (l : task_list_t) :
  wf_config cfg ->
  wf_store cfg l ->
  exists l',
    activate_waiting_tasks cfg l = Done l'
    /\ nTasks l' = nTasks l /\ current_task l' = current_task l
    /\ next_task l' = next_task l /\ global_tick l' = global_tick l
    /\ forall i t, tcb_at l i = Some t ->
         tcb_at l' i = Some (if decide (i <= nTasks l) then wake_step cfg t else t).
Proof.
  intros Hcfg Hwf. pose proof Hcfg as []. pose proof Hwf as [Hlen Hn _].
  assert (exists l', activate_waiting_tasks cfg l = Done l') as [l' Hwake].
  { rewrite activate_waiting_tasks_range by lia. eauto. }
  exists l'. split; [done |].
  pose proof (activate_loop_fields _ _ _ _ _ Hwake) as (? & ? & ? & ? & _).
  repeat split; try done.
  intros i t Ht. by apply activate_waiting_tasks_tcb.
Qed.

(** ** The first switch *)

Lemma first_run_step cfg e m m' :
  step cfg e m = Done m' -> first_run m = 0 -> first_run m' = 0.
Proof.
  intros Hstep Hzero.
  assert (forall type ma mb, dispatcher cfg type ma = Done mb ->
            first_run ma = 0 -> first_run mb = 0) as Hdisp.
  { intros type ma mb Hd Hz.
    apply dispatcher_Done in Hd as (r & _ & [[_ ->] | [_ Hcs]]); [done |].
    by apply context_switch_fields in Hcs as (_ & _ & _ & _ & _ & ? & _). }
  destruct e as [body prio autostart | | k | | task | | | c']; simpl in Hstep.
  - apply bind_Done in Hstep as ([h m1] & Hcreate & [= <-]).
    apply create_task_fields in Hcreate as (_ & _ & _ & Hf & _). simpl. congruence.
  - unfold rtos_start_scheduler in Hstep.
    apply bind_Done in Hstep as (m1 & Hidle & [= <-]).
    change (first_run (reload_systick cfg ?x)) with (first_run x).
    change (first_run (set_periph ?p m1)) with (first_run m1).
    destruct (RTOS_ENABLE_IS_ALIVE cfg); [| by injection Hidle as <-].
    apply bind_Done in Hidle as ([h m2] & Hcreate & [= <-]).
    apply create_task_fields in Hcreate as (_ & _ & _ & Hf & _). simpl in *. congruence.
  - unfold rtos_delay in Hstep.
    apply bind_Done in Hstep as (l1 & _ & Hstep).
    apply bind_Done in Hstep as (l2 & _ & Hd). by apply Hdisp in Hd.
  - unfold rtos_suspend_task in Hstep.
    apply bind_Done in Hstep as (l1 & _ & Hd). by apply Hdisp in Hd.
  - unfold rtos_activate_task in Hstep.
    apply bind_Done in Hstep as (l1 & _ & Hd). by apply Hdisp in Hd.
  - rewrite SysTick_Handler_entry in Hstep.
    apply bind_Done in Hstep as (l1 & _ & Hstep).
    apply bind_Done in Hstep as (m1 & Hd & [= <-]).
    change (first_run (reload_systick cfg m1)) with (first_run m1).
    apply Hdisp in Hd; [done |].
    change (first_run (tick_entry cfg m) = 0).
    destruct (tick_entry_fields cfg m) as (_ & _ & _ & _ & -> & _). done.
  - apply PendSV_Handler_store in Hstep as (_ & -> & _). done.
  - by injection Hstep as <-.
Qed.

Lemma first_run_run cfg es :
  forall m m', run cfg es m = Done m' -> first_run m = 0 -> first_run m' = 0.
Proof.
  induction es as [| e es IH]; intros m m' Hrun Hzero; simpl in Hrun.
  - by injection Hrun as <-.
  - apply bind_Done in Hrun as (m1 & Hstep & Hrun).
    eapply IH; [exact Hrun |]. by eapply first_run_step.
Qed.

Lemma dispatcher_before_first_switch cfg type m m' :
  dispatcher cfg type m = Done m' -> first_run m' <> 0 -> m' = m.
Proof.
  intros Hd Hne. apply dispatcher_Done in Hd as (r & _ & [[_ ->] | [_ Hcs]]); [done |].
  by apply context_switch_fields in Hcs as (_ & _ & _ & _ & _ & ? & _).
Qed.

Lemma sp_initial_modify cfg i f l l' :
  (forall t, sp (f t) = sp t) ->
  sp_initial cfg l -> tcb_modify i f l = Done l' -> sp_initial cfg l'.
Proof.
  intros Hf Hl Hmod. apply tcb_modify_Done in Hmod as (t & Ht & ->).
  intros j u Hj Hu. rewrite (tcb_at_put _ _ j t) in Hu by done.
  destruct (decide (i = j)) as [<- | Hne].
  - injection Hu as <-. rewrite Hf. by apply Hl.
  - by apply Hl.
Qed.

Lemma sp_wake_step cfg t : sp (wake_step cfg t) = sp t.
Proof. unfold wake_step. by repeat case_decide. Qed.

Lemma sp_initial_create cfg body prio autostart m h m' :
  wf_config cfg -> wf_store cfg (task_list m) ->
  sp_initial cfg (task_list m) ->
  rtos_create_task cfg body prio autostart m = Done (h, m') ->
  sp_initial cfg (task_list m').
Proof.
  intros Hcfg Hwf Hl Hc.
  pose proof Hcfg as [? ? _ _ _ Hstack]. pose proof Hwf as [_ Hn _].
  unfold STACK_FRAME_SIZE in Hstack.
  destruct (decide (RTOS_MAX_NUMBER_OF_TASKS cfg <= nTasks (task_list m)))
    as [Hfull | Hroom].
  { rewrite create_task_full in Hc by done. by injection Hc as _ <-. }
  destruct (wf_store_tcb_at cfg (task_list m) (nTasks (task_list m)) Hwf)
    as (u & Hu & [Hlen _]); [lia |].
  rewrite (create_task_room _ _ _ _ _ u) in Hc by (done || lia).
  injection Hc as _ <-. intros j t Hj Ht. simpl in Hj, Ht.
  rewrite to_uint8_small in Hj by lia.
  change (tcb_at (set_nTasks ?v ?l) j) with (tcb_at l j) in Ht.
  rewrite (tcb_at_put _ _ j u) in Ht by done.
  destruct (decide (nTasks (task_list m) = j)) as [<- | Hne].
  - by injection Ht as <-.
  - apply Hl; [lia | done].
Qed.

(** Until the first switch every saved stack pointer is the initial one. *)
Lemma sp_initial_step cfg e m m' :
  wf_config cfg -> wf_store cfg (task_list m) ->
  sp_initial cfg (task_list m) ->
  step cfg e m = Done m' -> first_run m' <> 0 ->
  sp_initial cfg (task_list m').
Proof.
  intros Hcfg Hwf Hl Hstep Hfirst.
  destruct e as [body prio autostart | | k | | task | | | c']; simpl in Hstep.
  - apply bind_Done in Hstep as ([h m1] & Hcreate & [= <-]).
    by eapply sp_initial_create.
  - unfold rtos_start_scheduler in Hstep.
    apply bind_Done in Hstep as (m1 & Hidle & [= <-]).
    change (task_list (reload_systick cfg ?x)) with (task_list x).
    change (task_list (set_periph ?p m1)) with (task_list m1).
    destruct (RTOS_ENABLE_IS_ALIVE cfg); [| by injection Hidle as <-].
    apply bind_Done in Hidle as ([h m2] & Hcreate & [= <-]).
    eapply sp_initial_create; [done | | | exact Hcreate]; [| done].
    by apply (wf_store_fields cfg (task_list m)).
  - unfold rtos_delay in Hstep.
    apply bind_Done in Hstep as (l1 & H1 & Hstep).
    apply bind_Done in Hstep as (l2 & H2 & Hd).
    apply dispatcher_before_first_switch in Hd as ->; [| done]. simpl.
    eapply sp_initial_modify; [| | exact H2]; [done |].
    eapply sp_initial_modify; [| | exact H1]; done.
  - unfold rtos_suspend_task in Hstep.
    apply bind_Done in Hstep as (l1 & H1 & Hd).
    apply dispatcher_before_first_switch in Hd as ->; [| done]. simpl.
    eapply sp_initial_modify; [| | exact H1]; done.
  - unfold rtos_activate_task in Hstep.
    apply bind_Done in Hstep as (l1 & H1 & Hd).
    apply dispatcher_before_first_switch in Hd as ->; [| done]. simpl.
    eapply sp_initial_modify; [| | exact H1]; done.
  - rewrite SysTick_Handler_entry in Hstep.
    apply bind_Done in Hstep as (l1 & Hwake & Hstep).
    apply bind_Done in Hstep as (m1 & Hd & [= <-]).
    change (first_run (reload_systick cfg m1)) with (first_run m1) in Hfirst.
    change (task_list (reload_systick cfg m1)) with (task_list m1).
    apply dispatcher_before_first_switch in Hd as ->; [| done]. simpl.
    destruct (tick_entry_fields cfg m) as (Htasks & Hn & _).
    pose proof (activate_loop_fields _ _ _ _ _ Hwake) as (Hn1 & _ & _ & _ & Hlen).
    intros j t Hj Ht. rewrite Hn1, Hn in Hj.
    destruct (tcb_at_is_Some (task_list m) j) as [u Hu].
    { apply tcb_at_Some in Ht. rewrite Hlen, Htasks in Ht. done. }
    rewrite (activate_waiting_tasks_tcb cfg (task_list (tick_entry cfg m)) l1 j u)
      in Ht; try done.
    + rewrite Hn, decide_True in Ht by lia. injection Ht as <-.
      rewrite sp_wake_step. by apply Hl.
    + by apply (wf_store_fields cfg (task_list m)).
    + by rewrite (tcb_at_ext _ (task_list m)).
  - by apply PendSV_Handler_store in Hstep as (-> & _).
  - by injection Hstep as <-.
Qed.

Lemma sp_initial_run cfg es :
  forall m m',
    wf_config cfg -> wf_store cfg (task_list m) ->
    sp_initial cfg (task_list m) ->
    run cfg es m = Done m' -> first_run m' <> 0 ->
    sp_initial cfg (task_list m').
Proof.
  induction es as [| e es IH]; intros m m' Hcfg Hwf Hl Hrun Hfirst; simpl in Hrun.
  - by injection Hrun as <-.
  - apply bind_Done in Hrun as (m1 & Hstep & Hrun).
    eapply IH; [done | | | exact Hrun | done].
    + by eapply wf_store_step.
    + eapply sp_initial_step; [done.. |].
      intros Hzero. by apply Hfirst, (first_run_run cfg es m1).
Qed.

(** X18: the first switch starts a task from its initial frame. In a state
    reached from reset in which no switch has happened yet, a dispatch that
    switches saves no stack pointer and clears the first-switch flag, and the
    PendSV handler that follows puts into [r7] the address that
    [rtos_create_task] computed for the selected task: the word just below
    the exception frame seeded at the top of its stack. *)
Theorem first_switch_bootstraps (cfg : rtos_config) (es : list event)
    (c : cpu_t) (p : periph_t) (type : task_switch_type_e) (m m1 : machine) :
  let l := task_list m in
  let l1 := task_list m1 in
  wf_config cfg ->
  run cfg es (machine_init cfg c p) = Done m ->
  first_run m <> 0 ->
  dispatcher cfg type m = Done m1 ->
  current_task l1 <> current_task l ->
  first_run m1 = 0
  /\ (forall i, sp <$> tcb_at l1 i = sp <$> tcb_at l i)
  /\ exists m2,
       PendSV_Handler m1 = Done m2
       /\ reg_r7 (cpu m2)
          = stack_addr cfg (current_task l1)
              (RTOS_STACK_SIZE cfg - 1 - STACK_FRAME_SIZE)
       /\ reg_r7 (cpu m2) + 1 + STACK_FRAME_SIZE
          = stack_addr cfg (current_task l1) (RTOS_STACK_SIZE cfg).
Proof.
  intros l l1 Hcfg Hrun Hfirst Hd Hsw. subst l l1.
  pose proof (wf_store_reachable cfg es c p m Hcfg Hrun) as Hwf.
  assert (sp_initial cfg (task_list m)) as Hinit.
  { eapply sp_initial_run; [done | | | exact Hrun | done].
    - by apply wf_store_init.
    - intros i t Hi. simpl in Hi. lia. }
  destruct (dispatcher_switch_runnable cfg type m m1 Hcfg Hwf Hd Hsw)
    as (t & Hrange & Ht & _ & Hcs).
  pose proof (context_switch_fields _ _ _ Hcs) as (_ & _ & _ & _ & Hlen & Hf & _).
  simpl in Hlen. split; [done |]. split.
  - intros i. destruct (tcb_at (task_list m) i) as [u |] eqn:Hu.
    + destruct (dispatcher_tcb cfg type m m1 i u Hd Hu) as (u' & Hu' & _ & _ & _ & Hsp).
      rewrite decide_False in Hsp by (by intros (_ & _ & ?)).
      rewrite Hu'. simpl. by rewrite Hsp.
    + destruct (tcb_at (task_list m1) i) as [u' |] eqn:Hu'; [| done].
      apply tcb_at_Some in Hu'. rewrite Hlen in Hu'.
      destruct (tcb_at_is_Some (task_list m) i) as [? ?]; [done | congruence].
  - destruct (dispatcher_tcb cfg type m m1 _ t Hd Ht) as (t' & Ht' & _ & _ & _ & Hsp).
    rewrite decide_False in Hsp by (by intros (_ & _ & ?)).
    destruct (PendSV_Handler_frame_total m1 t' Ht') as (m2 & Hp & _ & Hr7 & _).
    exists m2. split; [done |]. rewrite Hr7, Hsp, (Hinit _ t Hrange Ht).
    split; [done |]. unfold stack_addr. lia.
Qed.

(** ** The further properties at concrete inputs *)

Ltac by_compute := vm_compute; first [reflexivity | discriminate].
Ltac by_decide := refine (bool_decide_unpack _ _); vm_compute; exact I.


Lemma wf_store_started : wf_store cfg_two (task_list started).
Proof. apply (wf_store_after_two [EvCreate 512 2 kAutoStart; EvStart]). by_compute. Qed.




Lemma clock_counts_ticks_witness :
  rtos_get_clock
    (done_or reset_two (run cfg_two [EvTick; EvPendSV; EvDelay 1; EvTick] started))
  = (rtos_get_clock started
     + Z.of_nat (tick_count [EvTick; EvPendSV; EvDelay 1; EvTick])) mod 2 ^ 64.
Proof.
  apply (clock_counts_ticks cfg_two [EvTick; EvPendSV; EvDelay 1; EvTick] started).
  - split; by_compute.
  - by_decide.
  - by_compute.
Defined.

Lemma dispatcher_frame_witness :
  nTasks (task_list first_dispatch) = nTasks (task_list started)
  /\ current_task (task_list first_dispatch) = 0
  /\ exists t', tcb_at (task_list first_dispatch) 1 = Some t'
       /\ state t' = S_READY /\ local_tick t' = 0.
Proof.
  edestruct (dispatcher_frame cfg_two kFromISR started first_dispatch 1)
    as (Hn & _ & t' & Ht' & _ & Hl & Hst & _).
  - by_compute.
  - vm_compute. reflexivity.
  - split; [exact Hn |]. split; [by_compute |].
    exists t'. split; [exact Ht' |]. split; [| exact Hl].
    apply Hst. by_compute.
Defined.

Lemma dispatcher_idempotent_witness :
  dispatcher cfg_two kFromISR started = Done first_dispatch
  /\ dispatcher cfg_two kFromNormalExec first_dispatch = Done first_dispatch.
Proof.
  assert (dispatcher cfg_two kFromISR started = Done first_dispatch) as Hd
    by by_compute.
  split; [exact Hd |].
  exact (dispatcher_idempotent cfg_two kFromISR kFromNormalExec started first_dispatch
           wf_config_two wf_store_started Hd).
Defined.

Lemma dispatcher_without_runnable_witness :
  current_task (task_list one_suspended) = 0
  /\ dispatcher cfg_two kFromNormalExec one_suspended = Fault.
Proof.
  split; [by_compute |].
  destruct (dispatcher_without_runnable cfg_two kFromNormalExec one_suspended)
    as (_ & Hd).
  - exact wf_config_two.
  - apply (wf_store_after_two [EvCreate 512 2 kStartSuspended]). by_compute.
  - by_decide.
  - rewrite Hd. by_compute.
Defined.

Lemma create_all_handles_witness :
  exists hs m',
    create_all cfg_two
      [(512, 3, kAutoStart); (768, 2, kAutoStart); (1024, 1, kAutoStart)] reset_two
    = Done (hs, m')
    /\ length hs = 3%nat
    /\ nTasks (task_list m') = 2.
Proof.
  destruct (create_all_handles cfg_two
              [(512, 3, kAutoStart); (768, 2, kAutoStart); (1024, 1, kAutoStart)]
              reset_two)
    as (hs & m' & Hc & Hlen & _ & Hn).
  - exact wf_config_two.
  - apply (wf_store_after_two []). reflexivity.
  - exists hs, m'. split; [exact Hc |]. split; [exact Hlen |].
    rewrite Hn. by_compute.
Defined.

Lemma create_task_frame_witness :
  let m' := after_two [EvCreate 512 2 kAutoStart; EvCreate 768 1 kAutoStart] in
  tcb_at (task_list m') 0 = tcb_at (task_list one_created) 0
  /\ current_task (task_list m') = current_task (task_list one_created).
Proof.
  destruct (create_task_frame cfg_two 768 1 kAutoStart one_created
              (after_two [EvCreate 512 2 kAutoStart; EvCreate 768 1 kAutoStart]) 1)
    as (Hother & Hcur & _).
  - exact wf_config_two.
  - apply (wf_store_after_two [EvCreate 512 2 kAutoStart]). by_compute.
  - by_compute.
  - split; [| exact Hcur]. apply Hother. by_compute.
Defined.

Lemma reserved_stays_empty_witness : reserved_empty (task_list idle_preempted).
Proof.
  apply (reserved_stays_empty cfg_two
           [EvCreate 512 2 kAutoStart; EvStart; EvTick; EvPendSV;
            EvDelay 1; EvPendSV; EvTick]
           (mk_cpu 5000 0 0) (mk_periph 0 0 0 false 0)).
  by_compute.
Defined.

Lemma dispatch_then_PendSV_witness :
  ICSR_PENDSV (periph first_dispatch) = true
  /\ exists m2,
       PendSV_Handler first_dispatch = Done m2
       /\ reg_r7 (cpu m2) = 1003
       /\ ICSR_PENDSV (periph m2) = false.
Proof.
  destruct (dispatch_then_PendSV cfg_two kFromISR started first_dispatch)
    as (Hpend & m2 & t & Hp & Ht & Hr7 & _ & Hclr).
  - by_compute.
  - by_compute.
  - split; [exact Hpend |]. exists m2. split; [exact Hp |]. split; [| exact Hclr].
    rewrite Hr7. vm_compute in Ht. injection Ht as <-. reflexivity.
Defined.

Lemma heartbeat_period_witness :
  alive_count (Nat.iter 3 (refresh_is_alive cfg_two) reset_two) = 3
  /\ alive_pin (periph (Nat.iter (Z.to_nat 500) (refresh_is_alive cfg_two) reset_two)) = 0.
Proof.
  destruct (heartbeat_period cfg_two reset_two) as (Hcount & _ & _ & Hpin).
  - split; by_compute.
  - reflexivity.
  - split; [| exact Hpin]. apply (Hcount 3%nat). by_compute.
Defined.

Lemma start_scheduler_setup_witness :
  exists m',
    rtos_start_scheduler cfg_two one_created = Done m'
    /\ SysTick_CTRL (periph m') = 7
    /\ current_task (task_list m') = INVALID_TASK
    /\ nTasks (task_list m') = 2.
Proof.
  destruct (start_scheduler_setup cfg_two one_created)
    as (m' & Hs & Hctrl & _ & _ & _ & Hstore).
  - exact wf_config_two.
  - apply (wf_store_after_two [EvCreate 512 2 kAutoStart]). by_compute.
  - exists m'. split; [exact Hs |]. split; [exact Hctrl |].
    change (RTOS_ENABLE_IS_ALIVE cfg_two) with true in Hstore.
    destruct Hstore as (Hcur & _ & Hidle). split; [exact Hcur |].
    destruct (decide (nTasks (task_list one_created) < RTOS_MAX_NUMBER_OF_TASKS cfg_two))
      as [_ | Hfull].
    + destruct Hidle as (-> & _). by_compute.
    + exfalso. apply Hfull. by_compute.
Defined.

Lemma dispatcher_runs_first_highest_witness :
  exists m',
    dispatcher cfg_two kFromISR started = Done m'
    /\ 0 <= current_task (task_list m') < nTasks (task_list started).
Proof.
  destruct (dispatcher_runs_first_highest cfg_two kFromISR started)
    as (m' & t & Hd & Hrange & _).
  - exact wf_config_two.
  - exact wf_store_started.
  - by_decide.
  - eexists 0, _. split; [split; by_compute |].
    split; [vm_compute; reflexivity | reflexivity].
  - intros Hfirst. vm_compute in Hfirst. discriminate.
  - exists m'. split; [exact Hd | exact Hrange].
Defined.

Lemma priority_above_127_starved_witness :
  exists r,
    dispatcher_loop cfg_two loop_fuel (task_list two_priorities) 0 INVALID_TASK (-1)
    = Done r
    /\ 0 < r.1 < nTasks (task_list two_priorities).
Proof.
  edestruct (priority_above_127_starved cfg_two kFromISR two_priorities 0 1)
    as (Hloop & _).
  - exact wf_config_two.
  - apply (wf_store_after_two
             [EvCreate 512 200 kAutoStart; EvCreate 768 5 kAutoStart; EvStart]).
    by_compute.
  - vm_compute. reflexivity.
  - reflexivity.
  - by_compute.
  - vm_compute. reflexivity.
  - reflexivity.
  - split; by_compute.
  - exact Hloop.
Defined.

Lemma activate_preempts_witness :
  state_at (task_list low_running) 1 = Some S_SUSPENDED
  /\ exists m',
       rtos_activate_task cfg_two 1 low_running = Done m'
       /\ current_task (task_list m') = 1
       /\ state_at (task_list m') 1 = Some S_RUNNING.
Proof.
  split; [by_compute |].
  edestruct (activate_preempts cfg_two 1 low_running)
    as (m' & Hact & Hcur & Hst & _).
  - exact wf_config_two.
  - apply (wf_store_after_two
             [EvCreate 512 1 kAutoStart; EvCreate 768 2 kStartSuspended;
              EvStart; EvTick; EvPendSV]).
    by_compute.
  - split; by_compute.
  - by_compute.
  - vm_compute. reflexivity.
  - by_decide.
  - intros j u Hj Hne Hu _.
    assert (j = 0) as -> by (change (nTasks (task_list low_running)) with 2 in Hj; lia).
    vm_compute in Hu. injection Hu as <-. reflexivity.
  - intros _. vm_compute. eexists. reflexivity.
  - exists m'. split; [exact Hact |]. split; [exact Hcur | exact Hst].
Defined.

Lemma wake_up_pass_range_witness :
  exists l',
    activate_waiting_tasks cfg_two (task_list idle_running) = Done l'
    /\ state_at l' 0 = Some S_READY.
Proof.
  destruct (wake_up_pass_range cfg_two (task_list idle_running))
    as (l' & Hwake & _ & _ & _ & _ & Htcb).
  - exact wf_config_two.
  - apply (wf_store_after_two
             [EvCreate 512 2 kAutoStart; EvStart; EvTick; EvPendSV; EvDelay 1; EvPendSV]).
    by_compute.
  - exists l'. split; [exact Hwake |].
    unfold state_at. erewrite Htcb by (vm_compute; reflexivity). reflexivity.
Defined.

Lemma first_switch_bootstraps_witness :
  first_run started = 1
  /\ first_run first_dispatch = 0
  /\ exists m2,
       PendSV_Handler first_dispatch = Done m2
       /\ reg_r7 (cpu m2) = 1003.
Proof.
  split; [reflexivity |].
  destruct (first_switch_bootstraps cfg_two [EvCreate 512 2 kAutoStart; EvStart]
              (mk_cpu 5000 0 0) (mk_periph 0 0 0 false 0) kFromISR
              started first_dispatch)
    as (Hfirst & _ & m2 & Hp & Hr7 & _).
  - exact wf_config_two.
  - by_compute.
  - by_compute.
  - by_compute.
  - by_compute.
  - split; [exact Hfirst |]. exists m2. split; [exact Hp |].
    rewrite Hr7. by_compute.
Defined.
